(** * Real-time collaboration client: store, editor, viewer and socket service

    A shallow embedding of the collaboration code of the web client:

    - [Slice]: the Redux slice [collaborationSlice] (cursors, comments per
      document, document lock, participants);
    - [Editor]: the WebSocket message handler and the lock control of the
      [CollaborativeEditor] component;
    - [Viewer]: the comment handling of the [DocumentViewer] component;
    - [Service]: the socket.io client [CollaborationService];
    - [LockManager], [Session], [CommentThread]: what the client asks the
      server for: the lock, presence and comment resolution.

    The own properties of a JavaScript object used as a dictionary are a
    finite map with string keys, and a read falls back on the members of
    [Object.prototype]; arrays are lists, [T | null] and optional fields
    are [option T].
    Values read from the clock ([Date.now()], [new Date().toISOString()])
    are explicit arguments. *)

From stdpp Require Import base option list strings gmap fin_maps pretty.
From Stdlib Require Import ZArith Lia.

Set Warnings "-register-all".

Local Open Scope string_scope.
Local Open Scope Z_scope.
Local Open Scope list_scope.

(** JavaScript numbers.  The code carries coordinates, pages and ids around
    and compares them; it does no arithmetic on them. *)
Definition number := Z.

(** [interface Position], declared with the same fields by the slice and by
    the editor. *)
Record Position := mkPosition { x : number; y : number; page : number }.

(** [Array.prototype.find] is [List.find]; the element it returns is a draft
    that the reducers then mutate in place.  [mutateFirst p f l] is the list
    after [f] has been applied to the element [find p l] returns. *)
Fixpoint mutateFirst {A : Type} (p : A -> bool) (f : A -> A) (l : list A) : list A :=
  match l with
  | [] => []
  | a :: l' => if p a then f a :: l' else a :: mutateFirst p f l'
  end.

(** Truthiness of a [string | null] value: [null] and the empty string are
    falsy. *)
Definition truthy (s : option string) : bool :=
  match s with
  | None => false
  | Some v => negb (String.eqb v "")
  end.

(** The failures the session design names. *)
Inductive SessionError :=
| DuplicateParticipant
| UnknownParticipant
| LockHeld (holder : string)
| NotLockHolder
| CommentNotFound.


(** ** Plain objects used as dictionaries

    [state.comments], [state.cursors] and [state.documents] are plain
    objects: a read [o[k]] finds the own property [k] and, failing that,
    the member of [Object.prototype] of that name.  The own properties are
    a finite map; the inherited members are the same for every object. *)

(** The names of the members of [Object.prototype]. *)
Definition objectPrototypeNames : list string :=
  [ "constructor"; "__defineGetter__"; "__defineSetter__"; "hasOwnProperty";
    "__lookupGetter__"; "__lookupSetter__"; "isPrototypeOf";
    "propertyIsEnumerable"; "toString"; "valueOf"; "__proto__";
    "toLocaleString" ].

Definition inheritedName (k : string) : bool :=
  bool_decide (k ∈ objectPrototypeNames).

(** What a read [o[k]] yields: the own property, an inherited member (a
    function, or [Object.prototype] itself for ["__proto__"]; truthy, and
    without [push], [find], [filter] or [sharedWith]), or [undefined]. *)
Inductive Member (A : Type) :=
| Own (a : A)
| Inherited
| Missing.
Arguments Own {A} a.
Arguments Inherited {A}.
Arguments Missing {A}.

Definition member {A : Type} (k : string) (o : gmap string A) : Member A :=
  match o !! k with
  | Some a => Own a
  | None => if inheritedName k then Inherited else Missing
  end.

(** What a call can throw: a failure of the session design (no code under
    study throws one), a [TypeError] (calling or reading a member of
    [undefined]), a [SyntaxError] ([JSON.parse] on a text that is not JSON),
    or the error Immer raises when the prototype of a draft is set, which is
    what an assignment to [draft["__proto__"]] does. *)
Inductive Exception :=
| Failure (e : SessionError)
| TypeError
| SyntaxError
| ImmerError.

(** How a call ends: it returns a value or it throws. *)
Inductive Completion (A : Type) :=
| Returns (a : A)
| Throws (e : Exception).
Arguments Returns {A} a.
Arguments Throws {A} e.

(** ** The collaboration slice *)

Module Slice.

Inductive Comment := mkComment {
  id : number;
  userId : string;
  content : string;
  position : Position;
  createdAt : string;
  replies : list Comment
}.

Record Cursor := mkCursor {
  cursorUserId : string;
  cursorPosition : Position;
  lastUpdate : string
}.

Record DocumentLock := mkLock {
  isLocked : bool;
  lockedBy : option string;
  lockedAt : option string
}.

(** [cursors] and [comments] hold the own properties of the two objects. *)
Record CollaborationState := mkState {
  activeDocumentId : option string;
  cursors : gmap string Cursor;
  comments : gmap string (list Comment);
  documentLock : DocumentLock;
  participants : list string;
  isConnected : bool;
  error : option string
}.

Definition unlocked : DocumentLock :=
  {| isLocked := false; lockedBy := None; lockedAt := None |}.

Definition initialState : CollaborationState :=
  {| activeDocumentId := None;
     cursors := ∅;
     comments := ∅;
     documentLock := unlocked;
     participants := [];
     isConnected := false;
     error := None |}.

(** Field assignments on the draft state. *)
Definition set_cursors (v : gmap string Cursor) (s : CollaborationState) :=
  mkState (activeDocumentId s) v (comments s) (documentLock s)
          (participants s) (isConnected s) (error s).
Definition set_comments (v : gmap string (list Comment)) (s : CollaborationState) :=
  mkState (activeDocumentId s) (cursors s) v (documentLock s)
          (participants s) (isConnected s) (error s).
Definition set_documentLock (v : DocumentLock) (s : CollaborationState) :=
  mkState (activeDocumentId s) (cursors s) (comments s) v
          (participants s) (isConnected s) (error s).
Definition set_participants (v : list string) (s : CollaborationState) :=
  mkState (activeDocumentId s) (cursors s) (comments s) (documentLock s)
          v (isConnected s) (error s).
Definition set_isConnected (v : bool) (s : CollaborationState) :=
  mkState (activeDocumentId s) (cursors s) (comments s) (documentLock s)
          (participants s) v (error s).
Definition set_error (v : option string) (s : CollaborationState) :=
  mkState (activeDocumentId s) (cursors s) (comments s) (documentLock s)
          (participants s) (isConnected s) v.

Definition set_content (v : string) (c : Comment) : Comment :=
  mkComment (id c) (userId c) v (position c) (createdAt c) (replies c).

(** [comment.replies.push(reply)] *)
Definition pushReply (reply : Comment) (c : Comment) : Comment :=
  mkComment (id c) (userId c) (content c) (position c) (createdAt c)
            (replies c ++ [reply]).

(** [(c) => c.id === commentId] *)
Definition hasId (commentId : number) (c : Comment) : bool := Z.eqb (id c) commentId.

(** The comment list a document owns in the store, empty when it owns
    none. *)
Definition commentsOf (documentId : string) (state : CollaborationState) : list Comment :=
  default [] (comments state !! documentId).

(** The first comment with the id in the list the document owns. *)
Definition findComment (state : CollaborationState) (documentId : string)
    (commentId : number) : option Comment :=
  find (hasId commentId) (commentsOf documentId state).

(** *** Reducers

    A reducer runs on an Immer draft of the state.  It returns the next
    state or throws; when it throws, the draft is discarded. *)

Definition setActiveDocument (state : CollaborationState) (payload : string)
    : Completion CollaborationState :=
  (* state.comments[payload] = state.comments[payload] || [];
     for "__proto__" the value read is Object.prototype and the assignment
     runs the inherited setter on the draft *)
  if bool_decide (payload = "__proto__") then Throws ImmerError
  else
    Returns
      {| activeDocumentId := Some payload;
         cursors := ∅;
         comments :=
           match member payload (comments state) with
           | Missing => <[payload := []]> (comments state)
           (* an array, even an empty one, and an inherited member are
              truthy: the value read is assigned back, nothing changes *)
           | Own _ | Inherited => comments state
           end;
         documentLock := unlocked;
         participants := [];
         isConnected := isConnected state;
         error := error state |}.

(** [now] is the value of [new Date().toISOString()] at the call.  The
    assignment [state.cursors[userId] = ...] creates or replaces the own
    property, except for ["__proto__"], where it runs the inherited setter
    on the draft. *)
Definition updateCursor (now : string) (state : CollaborationState)
    (userId : string) (position : Position) : Completion CollaborationState :=
  if bool_decide (userId = "__proto__") then Throws ImmerError
  else
    Returns
      (set_cursors
         (<[userId := {| cursorUserId := userId;
                         cursorPosition := position;
                         lastUpdate := now |}]> (cursors state))
         state).

(** [delete state.cursors[payload]] removes an own property and does
    nothing otherwise. *)
Definition removeCursor (state : CollaborationState) (payload : string)
    : CollaborationState :=
  set_cursors (delete payload (cursors state)) state.

Definition addComment (state : CollaborationState) (documentId : string)
    (comment : Comment) : Completion CollaborationState :=
  (* if (!state.comments[documentId]) state.comments[documentId] = [];
     state.comments[documentId].push(comment) *)
  match member documentId (comments state) with
  | Own cs =>
      Returns (set_comments (<[documentId := cs ++ [comment]]> (comments state)) state)
  | Missing =>
      Returns (set_comments (<[documentId := [comment]]> (comments state)) state)
  | Inherited => Throws TypeError
  end.

Definition updateComment (state : CollaborationState) (documentId : string)
    (commentId : number) (content : string) : Completion CollaborationState :=
  (* state.comments[documentId]?.find(...) *)
  match member documentId (comments state) with
  | Own cs =>
      match find (hasId commentId) cs with
      | None => Returns state
      | Some _ =>
          Returns
            (set_comments
               (<[documentId := mutateFirst (hasId commentId) (set_content content) cs]>
                  (comments state))
               state)
      end
  | Missing => Returns state
  | Inherited => Throws TypeError
  end.

Definition removeComment (state : CollaborationState) (documentId : string)
    (commentId : number) : Completion CollaborationState :=
  (* if (state.comments[documentId])
       state.comments[documentId] = state.comments[documentId].filter(...) *)
  match member documentId (comments state) with
  | Own cs =>
      (* an assignment to "__proto__" runs the inherited setter on the
         draft even where the table owns a property of that name *)
      if bool_decide (documentId = "__proto__") then Throws ImmerError
      else
        Returns
          (set_comments
             (<[documentId := filter (fun c => id c ≠ commentId) cs]> (comments state))
             state)
  | Missing => Returns state
  | Inherited => Throws TypeError
  end.

Definition addReply (state : CollaborationState) (documentId : string)
    (commentId : number) (reply : Comment) : Completion CollaborationState :=
  match member documentId (comments state) with
  | Own cs =>
      match find (hasId commentId) cs with
      | None => Returns state
      | Some _ =>
          Returns
            (set_comments
               (<[documentId := mutateFirst (hasId commentId) (pushReply reply) cs]>
                  (comments state))
               state)
      end
  | Missing => Returns state
  | Inherited => Throws TypeError
  end.

Definition setDocumentLock (state : CollaborationState) (payload : DocumentLock)
    : CollaborationState :=
  set_documentLock payload state.

Definition updateParticipants (state : CollaborationState) (payload : list string)
    : CollaborationState :=
  set_participants payload state.

Definition setConnectionStatus (state : CollaborationState) (payload : bool)
    : CollaborationState :=
  set_isConnected payload state.

Definition setError (state : CollaborationState) (payload : option string)
    : CollaborationState :=
  set_error payload state.

Definition clearCollaborationState (state : CollaborationState) : CollaborationState :=
  {| activeDocumentId := None;
     cursors := ∅;
     comments := ∅;
     documentLock := unlocked;
     participants := [];
     isConnected := false;
     error := None |}.

(** *** Actions and dispatch *)

Inductive Action :=
| SetActiveDocument (payload : string)
| UpdateCursor (userId : string) (position : Position)
| RemoveCursor (payload : string)
| AddComment (documentId : string) (comment : Comment)
| UpdateComment (documentId : string) (commentId : number) (content : string)
| RemoveComment (documentId : string) (commentId : number)
| AddReply (documentId : string) (commentId : number) (reply : Comment)
| SetDocumentLock (payload : DocumentLock)
| UpdateParticipants (payload : list string)
| SetConnectionStatus (payload : bool)
| SetError (payload : option string)
| ClearCollaborationState.

(** How dispatching an action ends: [collaborationSlice.reducer] applied to
    the state and the action. *)
Definition dispatch (now : string) (state : CollaborationState) (a : Action)
    : Completion CollaborationState :=
  match a with
  | SetActiveDocument d => setActiveDocument state d
  | UpdateCursor u p => updateCursor now state u p
  | RemoveCursor u => Returns (removeCursor state u)
  | AddComment d c => addComment state d c
  | UpdateComment d i t => updateComment state d i t
  | RemoveComment d i => removeComment state d i
  | AddReply d i r => addReply state d i r
  | SetDocumentLock l => Returns (setDocumentLock state l)
  | UpdateParticipants ps => Returns (updateParticipants state ps)
  | SetConnectionStatus b => Returns (setConnectionStatus state b)
  | SetError e => Returns (setError state e)
  | ClearCollaborationState => Returns (clearCollaborationState state)
  end.

(** The store after an action has been dispatched: the state the reducer
    returns, and the state as it was when the reducer throws. *)
Definition reducer (now : string) (state : CollaborationState) (a : Action)
    : CollaborationState :=
  match dispatch now state a with
  | Returns state' => state'
  | Throws _ => state
  end.

(** The store after a sequence of dispatched actions. *)
Definition run (now : string) (actions : list Action) (state : CollaborationState)
    : CollaborationState :=
  fold_left (reducer now) actions state.

End Slice.

(** ** The collaborative editor *)

Module Editor.

Inductive Comment := mkComment {
  id : number;
  user_id : string;
  content : string;
  position : Position;
  created_at : string;
  replies : list Comment
}.

(** The collaboration state of the component: [comments], [cursors],
    [isLocked] and [lockOwner].  The page number, the scale and the AR
    flag are not touched by the message handler. *)
Record EditorState := mkEditor {
  comments : list Comment;
  cursors : gmap string Position;
  isLocked : bool;
  lockOwner : option string
}.

Record InitialData := mkInitialData {
  initialComments : list Comment;
  initialCursors : gmap string Position
}.

(** The initial values given to [useState]. *)
Definition initialEditor (initialData : option InitialData) : EditorState :=
  {| comments := from_option initialComments [] initialData;
     cursors := from_option initialCursors ∅ initialData;
     isLocked := false;
     lockOwner := None |}.

(** A parsed server message, by its [type]. *)
Inductive ServerMessage :=
| cursor_update (user_id : string) (position : Position)
| new_comment (comment : Comment)
| document_locked (user_id : string)
| document_unlocked
| other_type (type : string).

(** The [switch (data.type)] of the message effect. *)
Definition handleMessage (st : EditorState) (data : ServerMessage) : EditorState :=
  match data with
  | cursor_update user_id position =>
      mkEditor (comments st) (<[user_id := position]> (cursors st))
               (isLocked st) (lockOwner st)
  | new_comment comment =>
      mkEditor (comments st ++ [comment]) (cursors st) (isLocked st) (lockOwner st)
  | document_locked user_id =>
      mkEditor (comments st) (cursors st) true (Some user_id)
  | document_unlocked =>
      mkEditor (comments st) (cursors st) false None
  | other_type _ => st
  end.

(** The editor after the body of the effect has handled each of these
    messages, in order. *)
Definition receive (msgs : list ServerMessage) (st : EditorState) : EditorState :=
  fold_left handleMessage msgs st.

(** What the component sends. *)
Inductive ClientMessage :=
| send_cursor_update (position : Position)
| send_comment (content : string) (position : Position)
| acquire_lock
| release_lock.

Definition addComment (content : string) (position : Position) : list ClientMessage :=
  [send_comment content position].
Definition acquireLock : list ClientMessage := [acquire_lock].
Definition releaseLock : list ClientMessage := [release_lock].

(** The element rendered in [document-controls]. *)
Inductive Control :=
| LockForEditing
| ReleaseLock
| LockedBy (lockOwner : option string).

Definition documentControls (token : string) (st : EditorState) : Control :=
  if negb (isLocked st) then LockForEditing
  else if bool_decide (lockOwner st = Some token) then ReleaseLock
  else LockedBy (lockOwner st).

(** What a click on the rendered control sends. *)
Definition onClick (c : Control) : list ClientMessage :=
  match c with
  | LockForEditing => acquireLock
  | ReleaseLock => releaseLock
  | LockedBy _ => []
  end.

(** The participant whose identity is [token] observes the lock as held
    by itself: the lock is set and [lockOwner === token]. *)
Definition heldBySelf (token : string) (st : EditorState) : bool :=
  isLocked st && bool_decide (lockOwner st = Some token).

End Editor.

(** ** The frames behind the message effect

    The message effect of the editor depends on [[lastMessage]], a
    [string | null]: React runs it after the first render and after every
    render in which [lastMessage] differs from its value in the render
    before. *)

Module Frames.

(** The values of [lastMessage] on which the effect runs, given its values
    in the successive renders: the first, and every one that differs from
    the one before it. *)
Fixpoint changes (previous : option string) (values : list (option string))
    : list (option string) :=
  match values with
  | [] => []
  | v :: vs =>
      if bool_decide (v = previous) then changes v vs else v :: changes v vs
  end.

Definition effectRuns (values : list (option string)) : list (option string) :=
  match values with
  | [] => []
  | v :: vs => v :: changes v vs
  end.

(** [if (!lastMessage) return;]: the runs that reach [JSON.parse]. *)
Definition reachParse (runs : list (option string)) : list string :=
  omap (fun v => if truthy v then v else None) runs.

Section WithParse.

(** [JSON.parse(lastMessage)] with the reads of [data.type] and of the
    fields its case uses: the message, or what is thrown (a [SyntaxError]
    for a text that is not JSON, a [TypeError] for the text [null]). *)
Context (parse : string -> Completion Editor.ServerMessage).

(** The messages of these texts; the first failure, if one fails. *)
Fixpoint parseAll (texts : list string) : Completion (list Editor.ServerMessage) :=
  match texts with
  | [] => Returns []
  | t :: ts =>
      match parse t with
      | Throws e => Throws e
      | Returns m =>
          match parseAll ts with
          | Throws e => Throws e
          | Returns ms => Returns (m :: ms)
          end
      end
  end.

(** The editor after the renders in which [lastMessage] had these values.
    An effect that throws takes the component down. *)
Definition deliver (values : list (option string)) (st : Editor.EditorState)
    : Completion Editor.EditorState :=
  match parseAll (reachParse (effectRuns values)) with
  | Throws e => Throws e
  | Returns msgs => Returns (Editor.receive msgs st)
  end.

End WithParse.

End Frames.

(** ** The shared types of the viewer and of the socket service *)

Module Types.

Inductive Status := online | offline | away.

Module User.
Record t := mk {
  id : string;
  name : string;
  avatar : option string;
  role : string;
  status : Status
}.
End User.

Module Comment.
Record Pos := mkPos { x : number; y : number; page : option number }.
Record t := mk {
  id : string;
  content : string;
  user : User.t;
  timestamp : string;
  position : option Pos;
  resolved : option bool
}.
End Comment.

Inductive AnnotationType := highlight | underline | strikethrough | comment.

Module Annotation.
Record Pos := mkPos { start : number; end_ : number; page : option number }.
Record t := mk {
  id : string;
  type : AnnotationType;
  content : option string;
  color : option string;
  user : User.t;
  timestamp : string;
  position : Pos
}.
End Annotation.

Inductive MessageType := text | file | system.

Module Message.
Record t := mk {
  id : string;
  content : string;
  type : MessageType;
  sender : User.t;
  timestamp : string
}.
End Message.

(** Of a [Document] the functions below only test whether there is one. *)
Module Document.
Record t := mk { id : string; name : string }.
End Document.

End Types.

(** ** The document viewer *)

Module Viewer.
Import Types.

Definition currentUser : User.t :=
  {| User.id := "current-user"; User.name := "You"; User.avatar := None;
     User.role := "editor"; User.status := online |}.

(** [handleAddComment]: the comment handed to [addComment], if any.
    [nowMs] is [Date.now()], [nowIso] is [new Date().toISOString()]. *)
Definition handleAddComment (document : option Document.t) (currentPage : number)
    (nowMs : Z) (nowIso : string) (content : string) : option Comment.t :=
  match document with
  | None => None
  | Some _ =>
      Some {| Comment.id := "comment-" +:+ pretty nowMs;
              Comment.content := content;
              Comment.user := currentUser;
              Comment.timestamp := nowIso;
              Comment.position :=
                Some {| Comment.x := 0; Comment.y := 0;
                        Comment.page := Some currentPage |};
              Comment.resolved := None |}
  end.

(** [!comment.resolved]: the Resolve button is rendered for a comment
    whose flag is absent or false. *)
Definition showsResolve (c : Comment.t) : bool :=
  negb (default false (Comment.resolved c)).

(** The comments created by a sequence of [handleAddComment] calls on an
    open document; each call comes with its clock reading, its time
    stamp and its text. *)
Definition created (d : Document.t) (currentPage : number)
    (calls : list (Z * string * string)) : list Comment.t :=
  omap (fun '(nowMs, nowIso, content) =>
          handleAddComment (Some d) currentPage nowMs nowIso content) calls.

End Viewer.

(** ** The socket service *)

Module Service.
Import Types.

(** An event handed to [socket.emit], with its payload. *)
Inductive Emit :=
| annotation_add (documentId : string) (annotation : Annotation.t)
| annotation_remove (documentId : string) (annotationId : string)
| comment_add (documentId : string) (comment : Comment.t)
| comment_resolve (documentId : string) (commentId : string)
| message_send (documentId : string) (message : Message.t)
| cursor_move (documentId : string) (x y : number)
| users_get (documentId : string)
| document_history (documentId : string).

(** The socket, as far as the service uses it for sending: the events
    emitted on it so far, oldest first. *)
Record Socket := mkSocket { emitted : list Emit }.

(** The fields [socket], [documentId] and [user] of the service.  The
    event callbacks are only stored by their setters and read by the
    listeners; no operation below reads or changes them. *)
Record CollaborationService := mkService {
  socket : option Socket;
  documentId : option string;
  user : option User.t
}.

Definition initial : CollaborationService :=
  {| socket := None; documentId := None; user := None |}.

Definition connect (documentId : string) (user : User.t)
    (svc : CollaborationService) : CollaborationService :=
  {| socket := Some (mkSocket []); documentId := Some documentId; user := Some user |}.

(** [disconnect()]: [this.socket.disconnect()] closes the socket the
    service holds, if it holds one, and the three fields become [null].
    The result is the socket that was closed and the service afterwards. *)
Definition disconnecting (svc : CollaborationService)
    : option Socket * CollaborationService :=
  (socket svc, {| socket := None; documentId := None; user := None |}).

(** The service after [disconnect()]. *)
Definition disconnect (svc : CollaborationService) : CollaborationService :=
  (disconnecting svc).2.

(** [this.socket.emit(e)] *)
Definition emit (e : Emit) (svc : CollaborationService) (sock : Socket)
    : CollaborationService :=
  {| socket := Some (mkSocket (emitted sock ++ [e]));
     documentId := documentId svc;
     user := user svc |}.

(** The guard [if (!this.socket || !this.documentId) return;] followed by
    one [emit] whose payload carries the document id. *)
Definition guarded (svc : CollaborationService) (e : string -> Emit)
    : CollaborationService :=
  match socket svc, documentId svc with
  | Some sock, Some d => if truthy (Some d) then emit (e d) svc sock else svc
  | _, _ => svc
  end.

Definition addAnnotation (annotation : Annotation.t) (svc : CollaborationService) :=
  guarded svc (fun d => annotation_add d annotation).

Definition removeAnnotation (annotationId : string) (svc : CollaborationService) :=
  guarded svc (fun d => annotation_remove d annotationId).

Definition addComment (comment : Comment.t) (svc : CollaborationService) :=
  guarded svc (fun d => comment_add d comment).

Definition resolveComment (commentId : string) (svc : CollaborationService) :=
  guarded svc (fun d => comment_resolve d commentId).

(** [sendMessage] also needs a user.  [nowMs] is [Date.now()], [nowIso]
    is [new Date().toISOString()]. *)
Definition sendMessage (nowMs : Z) (nowIso : string) (content : string)
    (svc : CollaborationService) : CollaborationService :=
  match user svc with
  | None => svc
  | Some u =>
      guarded svc (fun d =>
        message_send d {| Message.id := "message-" +:+ pretty nowMs;
                          Message.content := content;
                          Message.type := text;
                          Message.sender := u;
                          Message.timestamp := nowIso |})
  end.

Definition updateCursorPosition (x y : number) (svc : CollaborationService) :=
  guarded svc (fun d => cursor_move d x y).

(** A promise as its caller sees it when the call returns: already
    resolved with a value, or waiting for the acknowledgement of the
    server. *)
Inductive Promise (A : Type) :=
| Resolved (v : A)
| AwaitsAck.
Arguments Resolved {A} v.
Arguments AwaitsAck {A}.

Definition getActiveUsers (svc : CollaborationService)
    : CollaborationService * Promise (list User.t) :=
  match socket svc, documentId svc with
  | Some sock, Some d =>
      if truthy (Some d) then (emit (users_get d) svc sock, AwaitsAck)
      else (svc, Resolved [])
  | _, _ => (svc, Resolved [])
  end.

Record History := mkHistory {
  annotations : list Annotation.t;
  comments : list Comment.t;
  messages : list Message.t
}.

Definition getDocumentHistory (svc : CollaborationService)
    : CollaborationService * Promise History :=
  match socket svc, documentId svc with
  | Some sock, Some d =>
      if truthy (Some d) then (emit (document_history d) svc sock, AwaitsAck)
      else (svc, Resolved (mkHistory [] [] []))
  | _, _ => (svc, Resolved (mkHistory [] [] []))
  end.

(** The events emitted on the socket of the service so far. *)
Definition outbox (svc : CollaborationService) : list Emit :=
  from_option emitted [] (socket svc).

End Service.

(** ** The server side of the lock and of comment resolution

    The client sends [acquire_lock] and [comment:resolve] and applies what
    the server announces.  The code that decides these requests is not part
    of the client. *)

Module LockManager.

(** Modelled from the spec: the state of the Edit Lock Manager, which lives
    in the server behind [/ws/document/{id}] and is missing from the
    sources: "State machine: Unlocked → Locked(holder) → Unlocked". *)
Inductive LockState :=
| Unlocked
| Locked (holder : string).

(** Modelled from the spec: the server's [acquire(participantId)], missing
    from the sources: "from Unlocked, transitions to Locked(participantId),
    succeeds. From Locked(other), fails with LockHeld (reports the current
    holder). From Locked(self), succeeds idempotently (no-op, already held
    by caller)."  The result is the next state and the failure, if any. *)
Definition acquire (participantId : string) (s : LockState)
    : LockState * option SessionError :=
  match s with
  | Unlocked => (Locked participantId, None)
  | Locked holder =>
      if bool_decide (holder = participantId) then (Locked holder, None)
      else (Locked holder, Some (LockHeld holder))
  end.

(** An editor shows a lock state when its two lock fields spell it. *)
Definition shows (st : Editor.EditorState) (s : LockState) : Prop :=
  match s with
  | Unlocked => Editor.isLocked st = false /\ Editor.lockOwner st = None
  | Locked holder => Editor.isLocked st = true /\ Editor.lockOwner st = Some holder
  end.


(** Modelled from the spec: the server's [release(participantId)], missing
    from the sources: "from Locked(self), transitions to Unlocked, succeeds.
    From Locked(other), fails with NotLockHolder. From Unlocked, no-op
    success (idempotent release)." *)
Definition release (participantId : string) (s : LockState)
    : LockState * option SessionError :=
  match s with
  | Unlocked => (Unlocked, None)
  | Locked holder =>
      if bool_decide (holder = participantId) then (Unlocked, None)
      else (Locked holder, Some NotLockHolder)
  end.

(** Modelled from the spec: the two lock requests of a participant, the
    message kinds "lock_acquire, lock_release" of the transport, missing
    from the sources on the server side. *)
Inductive Request :=
| Acquire (participantId : string)
| Release (participantId : string).

(** Modelled from the spec: the dispatch of a lock request to [acquire] or
    [release] ("dispatches by message kind to the relevant component"). *)
Definition serve (r : Request) (s : LockState) : LockState * option SessionError :=
  match r with
  | Acquire p => acquire p s
  | Release p => release p s
  end.

(** Modelled from the spec: requests are served one after the other ("all
    mutating operations on a given session ... must be applied atomically
    with respect to each other"), and each is answered to its sender.  The
    result is the lock afterwards and the answers, oldest first. *)
Fixpoint serveAll (requests : list Request) (s : LockState)
    : LockState * list (Request * option SessionError) :=
  match requests with
  | [] => (s, [])
  | r :: rs =>
      let next := serve r s in
      let rest := serveAll rs next.1 in
      (rest.1, (r, next.2) :: rest.2)
  end.

(** Modelled from the spec: what a participant observes of the lock, which
    the sources leave to the answers of the server: "the originating client
    receives a typed failure response it can react to", failures are
    "reported only to the originating connection".  From one answer
    participant [p] learns: a granted acquire of its own tells it that it
    holds the lock, a refused acquire and an answered release of its own
    that it does not; the answers to others are not sent to it. *)
Definition learns (p : string) (held : bool) (answer : Request * option SessionError)
    : bool :=
  match answer with
  | (Acquire q, None) => if bool_decide (q = p) then true else held
  | (Acquire q, Some _) => if bool_decide (q = p) then false else held
  | (Release q, _) => if bool_decide (q = p) then false else held
  end.

(** Modelled from the spec: participant [p] "observes lock-held-by-self"
    after these answers; before any answer it does not. *)
Definition observes (p : string) (answers : list (Request * option SessionError))
    : bool :=
  fold_left (learns p) answers false.

(** Modelled from the spec: the event published for an answered request,
    "publishes the resulting event via the Broadcast Router on success; on
    failure, sends an error response only to the originator", under the
    names the editor listens for. *)
Definition announcement (answer : Request * option SessionError)
    : list Editor.ServerMessage :=
  match answer with
  | (Acquire p, None) => [Editor.document_locked p]
  | (Release _, None) => [Editor.document_unlocked]
  | (_, Some _) => []
  end.

(** Modelled from the spec: the events published for these answers, in
    order ("preserving per-participant FIFO ordering"). *)
Definition announcements (answers : list (Request * option SessionError))
    : list Editor.ServerMessage :=
  concat (map announcement answers).

End LockManager.

(** ** Presence and the lock on the server *)

Module Session.
Import LockManager.

(** Modelled from the spec: the session of the server, missing from the
    sources, as far as presence and the lock go: "ordered set of participant
    ids, comment thread list, lock state". *)
Record Session := mkSession {
  participants : list string;
  lock : LockState
}.

(** Modelled from the spec: the session [getOrCreate] creates, "a new,
    empty one". *)
Definition empty : Session := {| participants := []; lock := Unlocked |}.

(** Modelled from the spec: [join(participant)] of the Presence Tracker:
    "adds participant; fails with DuplicateParticipant if the same user id
    is already active in the session". *)
Definition join (p : string) (s : Session) : Session * option SessionError :=
  if bool_decide (p ∈ participants s) then (s, Some DuplicateParticipant)
  else ({| participants := participants s ++ [p]; lock := lock s |}, None).

(** Modelled from the spec: [onDisconnect(connection)]: "leaves via
    Presence Tracker, force-releases the lock if held by this participant",
    in one step of the session ("it must be atomic with the participant's
    removal"). *)
Definition onDisconnect (p : string) (s : Session) : Session :=
  {| participants := filter (fun q => q ≠ p) (participants s);
     lock := match lock s with
             | Unlocked => Unlocked
             | Locked holder =>
                 if bool_decide (holder = p) then Unlocked else Locked holder
             end |}.

(** Modelled from the spec: [onMessage(connection, message)] for the two
    lock messages.  A message of someone who is not in the session is a
    "stale/late message after departure — drop and log"
    ([UnknownParticipant]). *)
Definition onMessage (r : Request) (s : Session) : Session * option SessionError :=
  let p := match r with Acquire p | Release p => p end in
  if bool_decide (p ∈ participants s) then
    let next := serve r (lock s) in
    ({| participants := participants s; lock := next.1 |}, next.2)
  else (s, Some UnknownParticipant).

(** Modelled from the spec: what reaches the Connection Lifecycle Manager. *)
Inductive Event :=
| Connect (userId : string)
| Message (r : Request)
| Disconnect (userId : string).

(** Modelled from the spec: the session after one event; events are applied
    one at a time ("single logical serialization point per session"). *)
Definition step (s : Session) (e : Event) : Session :=
  match e with
  | Connect p => (join p s).1
  | Message r => (onMessage r s).1
  | Disconnect p => onDisconnect p s
  end.

(** Modelled from the spec: the session after these events, from its
    creation on the first connection. *)
Definition run (events : list Event) : Session := fold_left step events empty.

End Session.

Module CommentThread.
Import Types.

(** [(c) => c.id === commentId], on the viewer's comments. *)
Definition hasId (commentId : string) (c : Comment.t) : bool :=
  String.eqb (Comment.id c) commentId.

(** [comment.resolved = true] *)
Definition markResolved (c : Comment.t) : Comment.t :=
  {| Comment.id := Comment.id c;
     Comment.content := Comment.content c;
     Comment.user := Comment.user c;
     Comment.timestamp := Comment.timestamp c;
     Comment.position := Comment.position c;
     Comment.resolved := Some true |}.

(** Modelled from the spec: [resolve(commentId)] of the Comment Thread
    Store; the code that applies a resolution to the comment list (the
    hook [useCollaboration] on the client, the handler of
    [comment:resolve] on the server) is missing from the sources: "fails
    with CommentNotFound if absent; sets resolved = true; resolving an
    already-resolved comment is idempotent success."  The comment is
    looked up the way the slice looks comments up, with [find]. *)
Definition resolve (commentId : string) (comments : list Comment.t)
    : SessionError + list Comment.t :=
  match find (hasId commentId) comments with
  | None => inl CommentNotFound
  | Some _ => inr (mutateFirst (hasId commentId) markResolved comments)
  end.

End CommentThread.

(** ** The viewport of the collaborative editor

    The page number, the page count and the AR flag of [CollaborativeEditor],
    with the buttons and the voice commands that change them.  The scale is
    a floating point number: what "zoom in" and "zoom out" compute is left
    to the two functions [zoomIn] (for [Math.min(prev + 0.2, 2.0)]) and
    [zoomOut] (for [Math.max(prev - 0.2, 0.5)]), and so is
    [String.prototype.toLowerCase]. *)

Module Viewport.

Section WithScale.
Context {Scale : Type} (zoomIn zoomOut : Scale -> Scale)
        (toLowerCase : string -> string).

(** [numPages] is [null] until the document has loaded. *)
Record View := mkView {
  numPages : option number;
  pageNumber : number;
  scale : Scale;
  showAR : bool
}.

(** [ToNumber]: [null] counts as 0 in [Math.min] and in [>=]. *)
Definition toNumber (n : option number) : number := default 0 n.

Definition onDocumentLoadSuccess (n : number) (v : View) : View :=
  mkView (Some n) (pageNumber v) (scale v) (showAR v).

(** [setPageNumber((prev) => Math.min(prev + 1, numPages))] *)
Definition nextPage (v : View) : View :=
  mkView (numPages v) (Z.min (pageNumber v + 1) (toNumber (numPages v)))
         (scale v) (showAR v).

(** [setPageNumber((prev) => Math.max(prev - 1, 1))] *)
Definition previousPage (v : View) : View :=
  mkView (numPages v) (Z.max (pageNumber v - 1) 1) (scale v) (showAR v).

(** [disabled={pageNumber <= 1}] and [disabled={pageNumber >= numPages}] *)
Definition previousDisabled (v : View) : bool := pageNumber v <=? 1.
Definition nextDisabled (v : View) : bool := toNumber (numPages v) <=? pageNumber v.

(** A disabled button does not react to a click. *)
Definition clickPrevious (v : View) : View :=
  if previousDisabled v then v else previousPage v.
Definition clickNext (v : View) : View :=
  if nextDisabled v then v else nextPage v.

(** [String.prototype.includes] *)
Definition includes (s pattern : string) : bool :=
  match String.index 0 pattern s with
  | Some _ => true
  | None => false
  end.

(** The effect on [transcript]: the first phrase of the chain that occurs in
    the lower-cased transcript decides. *)
Definition onTranscript (transcript : string) (v : View) : View :=
  if negb (truthy (Some transcript)) then v
  else
    let command := toLowerCase transcript in
    if includes command "next page" then nextPage v
    else if includes command "previous page" then previousPage v
    else if includes command "zoom in" then
      mkView (numPages v) (pageNumber v) (zoomIn (scale v)) (showAR v)
    else if includes command "zoom out" then
      mkView (numPages v) (pageNumber v) (zoomOut (scale v)) (showAR v)
    else if includes command "ar mode" then
      mkView (numPages v) (pageNumber v) (scale v) (negb (showAR v))
    else v.

(** What the user does to the viewport. *)
Inductive Input :=
| Loaded (n : number)
| ClickPrevious
| ClickNext
| Said (transcript : string).

Definition step (v : View) (i : Input) : View :=
  match i with
  | Loaded n => onDocumentLoadSuccess n v
  | ClickPrevious => clickPrevious v
  | ClickNext => clickNext v
  | Said t => onTranscript t v
  end.

(** The page shown is one of the pages of a loaded document. *)
Definition pageInRange (v : View) : Prop :=
  exists n, numPages v = Some n /\ 1 <= pageNumber v <= n.

(** Inputs that move within the document, as opposed to loading one. *)
Definition navigates (i : Input) : bool :=
  match i with
  | Loaded _ => false
  | _ => true
  end.

End WithScale.

Arguments View : clear implicits.
Arguments mkView {Scale}.

End Viewport.

(** ** What the editor renders of the comments *)

Module Render.

(** [comments.filter((comment) => comment.position.page === pageNumber)] *)
Definition pageComments (pageNumber : number) (comments : list Editor.Comment)
    : list Editor.Comment :=
  filter (fun c => page (Editor.position c) = pageNumber) comments.

(** The comments carried by [new_comment] messages, in order. *)
Definition newComments (msgs : list Editor.ServerMessage) : list Editor.Comment :=
  omap (fun m => match m with Editor.new_comment c => Some c | _ => None end) msgs.

(** The message moves the cursor of [u]. *)
Definition movesCursorOf (u : string) (m : Editor.ServerMessage) : bool :=
  match m with
  | Editor.cursor_update user_id _ => bool_decide (user_id = u)
  | _ => false
  end.

End Render.

(** ** The comments of the document viewer, section by section *)

Module Sections.
Import Types.

(** Evaluating [c.position.page] for a comment without a position is a
    [TypeError]. *)
Inductive Rendered (A : Type) :=
| Shown (a : A)
| TypeError.
Arguments Shown {A} a.
Arguments TypeError {A}.

(** [comments.filter(c => c.position.page === index + 1)], for the section
    at [index]. *)
Fixpoint sectionComments (index : nat) (comments : list Comment.t)
    : Rendered (list Comment.t) :=
  match comments with
  | [] => Shown []
  | c :: rest =>
      match Comment.position c with
      | None => TypeError
      | Some pos =>
          match sectionComments index rest with
          | TypeError => TypeError
          | Shown kept =>
              if bool_decide (Comment.page pos = Some (Z.of_nat index + 1))
              then Shown (c :: kept) else Shown kept
          end
      end
  end.

(** [setRotation(prev => (prev + degrees) % 360)] on integer angles; the
    remainder has the sign of the dividend. *)
Definition handleRotate (degrees : Z) (prev : Z) : Z := Z.rem (prev + degrees) 360.

(** The rotation after [n] clicks on the rotate button, which passes 90. *)
Definition rotateClicks (n : nat) (prev : Z) : Z := Nat.iter n (handleRotate 90) prev.

End Sections.

(** ** Sequences of sends on the socket service *)

Module Calls.
Import Types.

Inductive Call :=
| AddAnnotation (annotation : Annotation.t)
| RemoveAnnotation (annotationId : string)
| AddComment (comment : Comment.t)
| ResolveComment (commentId : string)
| SendMessage (nowMs : Z) (nowIso : string) (content : string)
| UpdateCursorPosition (x y : number)
| GetActiveUsers
| GetDocumentHistory.

Definition perform (svc : Service.CollaborationService) (c : Call)
    : Service.CollaborationService :=
  match c with
  | AddAnnotation a => Service.addAnnotation a svc
  | RemoveAnnotation i => Service.removeAnnotation i svc
  | AddComment k => Service.addComment k svc
  | ResolveComment i => Service.resolveComment i svc
  | SendMessage nowMs nowIso content => Service.sendMessage nowMs nowIso content svc
  | UpdateCursorPosition x y => Service.updateCursorPosition x y svc
  | GetActiveUsers => (Service.getActiveUsers svc).1
  | GetDocumentHistory => (Service.getDocumentHistory svc).1
  end.

Definition performAll (calls : list Call) (svc : Service.CollaborationService)
    : Service.CollaborationService :=
  fold_left perform calls svc.

(** The [documentId] of the payload of an emitted event. *)
Definition documentOf (e : Service.Emit) : string :=
  match e with
  | Service.annotation_add d _ | Service.annotation_remove d _
  | Service.comment_add d _ | Service.comment_resolve d _
  | Service.message_send d _ | Service.cursor_move d _ _
  | Service.users_get d | Service.document_history d => d
  end.

(** The sender of an emitted chat message. *)
Definition senderOf (e : Service.Emit) : option User.t :=
  match e with
  | Service.message_send _ m => Some (Message.sender m)
  | _ => None
  end.

(** The service holds a socket and a document id that passes the guard. *)
Definition connectedTo (d : string) (svc : Service.CollaborationService) : Prop :=
  is_Some (Service.socket svc) /\ Service.documentId svc = Some d /\ d <> "".

End Calls.

(** ** The document slice *)

Module Documents.

Record Entity := mkEntity { entityType : string; text : string; confidence : number }.
Record Sentiment := mkSentiment { score : number; label : string }.

Record DocumentAnalysis := mkAnalysis {
  summary : string;
  entities : list Entity;
  keyPhrases : list string;
  sentiment : Sentiment
}.

Record Document := mkDocument {
  id : string;
  name : string;
  size : number;
  type : string;
  uploadedAt : string;
  uploadedBy : string;
  analysis : option DocumentAnalysis;
  blockchainHash : option string;
  ipfsHash : option string;
  isVerified : bool;
  sharedWith : list string
}.

(** [keyof Document] *)
Inductive Field :=
| f_id | f_name | f_size | f_type | f_uploadedAt | f_uploadedBy | f_analysis
| f_blockchainHash | f_ipfsHash | f_isVerified | f_sharedWith.

Inductive Direction := asc | desc.

(** A [Date] is carried as its time value. *)
Record Filters := mkFilters {
  search : string;
  filterType : list string;
  dateRange : option Z * option Z;
  sharedWithMe : bool
}.

Record Sorting := mkSorting { field : Field; direction : Direction }.

(** [documents] holds the own properties of the object, whose prototype is
    [Object.prototype]. *)
Record DocumentState := mkState {
  documents : gmap string Document;
  selectedDocument : option string;
  filters : Filters;
  sorting : Sorting;
  isLoading : bool;
  error : option string
}.

Definition initialState : DocumentState :=
  {| documents := ∅;
     selectedDocument := None;
     filters := {| search := ""; filterType := []; dateRange := (None, None);
                   sharedWithMe := false |};
     sorting := {| field := f_uploadedAt; direction := desc |};
     isLoading := false;
     error := None |}.

Definition set_documents (v : gmap string Document) (s : DocumentState) :=
  mkState v (selectedDocument s) (filters s) (sorting s) (isLoading s) (error s).

Definition set_sharedWith (v : list string) (d : Document) : Document :=
  mkDocument (id d) (name d) (size d) (type d) (uploadedAt d) (uploadedBy d)
             (analysis d) (blockchainHash d) (ipfsHash d) (isVerified d) v.

(** [action.payload.reduce((acc, doc) => { acc[doc.id] = doc; return acc; }, {})]
    on a plain object: [acc["__proto__"] = doc] makes [doc] the prototype of
    the object instead of storing it.  The result is given where no id is
    ["__proto__"]; with one, it is an object with a document for prototype,
    which [DocumentState] does not describe. *)
Definition byId (payload : list Document) : option (gmap string Document) :=
  if bool_decide (Exists (fun doc => id doc = "__proto__") payload) then None
  else Some (fold_left (fun acc doc => <[id doc := doc]> acc) payload ∅).

Definition setDocuments (state : DocumentState) (payload : list Document)
    : option DocumentState :=
  (fun acc => set_documents acc state) <$> byId payload.

(** The assignment creates or replaces the own property, except for
    ["__proto__"], where it runs the inherited setter on the draft. *)
Definition addDocument (state : DocumentState) (payload : Document)
    : Completion DocumentState :=
  if bool_decide (id payload = "__proto__") then Throws ImmerError
  else Returns (set_documents (<[id payload := payload]> (documents state)) state).

(** [delete state.documents[payload]] removes an own property and does
    nothing otherwise. *)
Definition removeDocument (state : DocumentState) (payload : string) : DocumentState :=
  mkState (delete payload (documents state))
          (if bool_decide (selectedDocument state = Some payload) then None
           else selectedDocument state)
          (filters state) (sorting state) (isLoading state) (error state).

Definition setSelectedDocument (state : DocumentState) (payload : option string)
    : DocumentState :=
  mkState (documents state) payload (filters state) (sorting state)
          (isLoading state) (error state).

(** The payload enters as the function [f => ({ ...f, ...payload })]. *)
Definition updateFilters (state : DocumentState) (merge : Filters -> Filters)
    : DocumentState :=
  mkState (documents state) (selectedDocument state) (merge (filters state))
          (sorting state) (isLoading state) (error state).

Definition setSorting (state : DocumentState) (payload : Sorting) : DocumentState :=
  mkState (documents state) (selectedDocument state) (filters state) payload
          (isLoading state) (error state).

Definition setLoading (state : DocumentState) (payload : bool) : DocumentState :=
  mkState (documents state) (selectedDocument state) (filters state) (sorting state)
          payload (error state).

Definition setError (state : DocumentState) (payload : option string) : DocumentState :=
  mkState (documents state) (selectedDocument state) (filters state) (sorting state)
          false payload.

Definition shareDocument (state : DocumentState) (i address : string)
    : Completion DocumentState :=
  (* if (state.documents[id]) state.documents[id].sharedWith.push(address) *)
  match member i (documents state) with
  | Own doc =>
      Returns
        (set_documents
           (<[i := set_sharedWith (sharedWith doc ++ [address]) doc]> (documents state))
           state)
  | Missing => Returns state
  (* an inherited member is truthy and has no [sharedWith] *)
  | Inherited => Throws TypeError
  end.

Definition revokeAccess (state : DocumentState) (i address : string)
    : Completion DocumentState :=
  match member i (documents state) with
  | Own doc =>
      Returns
        (set_documents
           (<[i := set_sharedWith (filter (fun a => a ≠ address) (sharedWith doc)) doc]>
              (documents state))
           state)
  | Missing => Returns state
  | Inherited => Throws TypeError
  end.

(** The actions of the slice other than [setDocuments], which is above, and
    [updateDocument]. *)
Inductive Action :=
| AddDocument (payload : Document)
| RemoveDocument (payload : string)
| SetSelectedDocument (payload : option string)
| UpdateFilters (merge : Filters -> Filters)
| SetSorting (payload : Sorting)
| SetLoading (payload : bool)
| SetError (payload : option string)
| ShareDocument (i address : string)
| RevokeAccess (i address : string).

(** How dispatching an action ends. *)
Definition dispatch (state : DocumentState) (a : Action) : Completion DocumentState :=
  match a with
  | AddDocument p => addDocument state p
  | RemoveDocument p => Returns (removeDocument state p)
  | SetSelectedDocument p => Returns (setSelectedDocument state p)
  | UpdateFilters m => Returns (updateFilters state m)
  | SetSorting p => Returns (setSorting state p)
  | SetLoading p => Returns (setLoading state p)
  | SetError p => Returns (setError state p)
  | ShareDocument i a => shareDocument state i a
  | RevokeAccess i a => revokeAccess state i a
  end.

(** The store after an action has been dispatched: unchanged when the
    reducer throws. *)
Definition reducer (state : DocumentState) (a : Action) : DocumentState :=
  match dispatch state a with
  | Returns state' => state'
  | Throws _ => state
  end.

(** The addresses a stored document is shared with; none when the store
    owns no document of that id. *)
Definition sharedWithOf (i : string) (state : DocumentState) : list string :=
  from_option sharedWith [] (documents state !! i).



End Documents.

(** ** The auth slice *)

Module Auth.

Record UserProfile := mkProfile {
  address : string;
  ensName : option string;
  roles : list string;
  organization : option string;
  licenseNumber : option string
}.

Record AuthState := mkState {
  token : option string;
  user : option UserProfile;
  isAuthenticated : bool;
  isLoading : bool;
  error : option string
}.

(** [localStorage], as far as the slice uses it: a string under a key. *)
Definition getItem (key : string) (storage : gmap string string) : option string :=
  storage !! key.

(** The initial state reads the token left in [localStorage]. *)
Definition initialState (storage : gmap string string) : AuthState :=
  {| token := getItem "token" storage;
     user := None;
     isAuthenticated := false;
     isLoading := true;
     error := None |}.

(** A reducer works on the state and on [localStorage]. *)
Definition World : Type := AuthState * gmap string string.

Definition setCredentials (w : World) (token : string) (user : UserProfile) : World :=
  ({| token := Some token; user := Some user; isAuthenticated := true;
      isLoading := false; error := None |},
   <["token" := token]> w.2).

(** The payload enters as the function [u => ({ ...u, ...payload })]. *)
Definition updateProfile (w : World) (merge : UserProfile -> UserProfile) : World :=
  match user w.1 with
  | None => w
  | Some u =>
      (mkState (token w.1) (Some (merge u)) (isAuthenticated w.1) (isLoading w.1)
               (error w.1),
       w.2)
  end.

Definition setLoading (w : World) (payload : bool) : World :=
  (mkState (token w.1) (user w.1) (isAuthenticated w.1) payload (error w.1), w.2).

Definition setError (w : World) (payload : string) : World :=
  (mkState (token w.1) (user w.1) (isAuthenticated w.1) false (Some payload), w.2).

Definition logout (w : World) : World :=
  ({| token := None; user := None; isAuthenticated := false; isLoading := false;
      error := None |},
   delete "token" w.2).

Inductive Action :=
| SetCredentials (token : string) (user : UserProfile)
| UpdateProfile (merge : UserProfile -> UserProfile)
| SetLoading (payload : bool)
| SetError (payload : string)
| Logout.

Definition reducer (w : World) (a : Action) : World :=
  match a with
  | SetCredentials t u => setCredentials w t u
  | UpdateProfile m => updateProfile w m
  | SetLoading b => setLoading w b
  | SetError e => setError w e
  | Logout => logout w
  end.

(** The store after a sequence of actions, started on a given
    [localStorage]. *)
Definition run (actions : list Action) (storage : gmap string string) : World :=
  fold_left reducer actions (initialState storage, storage).

End Auth.

(** ** The transcript of the voice recognition hook *)

Module Voice.

(** The loop of [onresult] over [event.results], from index [i] on: each
    result is the transcript of its first alternative and its [isFinal]
    flag. *)
Fixpoint collect (results : list (string * bool)) (finalTranscript interimTranscript : string)
    : string * string :=
  match results with
  | [] => (finalTranscript, interimTranscript)
  | (transcript, isFinal) :: rest =>
      if isFinal then collect rest (finalTranscript +:+ transcript) interimTranscript
      else collect rest finalTranscript (interimTranscript +:+ transcript)
  end.

(** [setTranscript(finalTranscript || interimTranscript)] *)
Definition onresult (resultIndex : nat) (results : list (string * bool)) : string :=
  let '(finalTranscript, interimTranscript) := collect (drop resultIndex results) "" "" in
  if truthy (Some finalTranscript) then finalTranscript else interimTranscript.

(** The texts of the results with a given [isFinal] flag, joined. *)
Definition joined (flag : bool) (results : list (string * bool)) : string :=
  foldr (fun r acc => r.1 +:+ acc) ""
        (filter (fun r : string * bool => r.2 = flag) results).

End Voice.

(** ** Text selection and annotations in the document viewer *)

Module Annotate.
Import Types.

(** A DOM selection, as far as the viewer reads it: whether it is collapsed,
    the value of [toString().trim()], and its ranges, each with its
    [startOffset] and [endOffset]. *)
Record Selection := mkSelection {
  isCollapsed : bool;
  trimmed : string;
  ranges : list (number * number)
}.

(** The state of the annotation tools. *)
Record Tools := mkTools {
  selectedText : string;
  showAnnotationTools : bool;
  annotationColor : string
}.

Definition initialTools : Tools :=
  {| selectedText := ""; showAnnotationTools := false; annotationColor := "#ffeb3b" |}.

(** [handleTextSelection]; [selection] is [window.getSelection()]. *)
Definition handleTextSelection (selection : option Selection) (t : Tools) : Tools :=
  match selection with
  | None => mkTools (selectedText t) false (annotationColor t)
  | Some sel =>
      if isCollapsed sel then mkTools (selectedText t) false (annotationColor t)
      else if truthy (Some (trimmed sel)) then mkTools (trimmed sel) true (annotationColor t)
      else t
  end.

(** How [handleAnnotation] ends: it returns, with the tools and the
    annotation handed to [addAnnotation] if any, or [getRangeAt(0)] throws
    because the selection has no range. *)
Inductive Outcome :=
| Returned (t : Tools) (added : option Annotation.t)
| IndexSizeError.

(** [handleAnnotation(type)]; [nowMs] is [Date.now()], [nowIso] is
    [new Date().toISOString()]. *)
Definition handleAnnotation (type : AnnotationType) (document : option Document.t)
    (currentPage : number) (selection : option Selection)
    (nowMs : Z) (nowIso : string) (t : Tools) : Outcome :=
  if negb (truthy (Some (selectedText t))) then Returned t None
  else
    match document, selection with
    | None, _ => Returned t None
    | Some _, None => Returned t None
    | Some _, Some sel =>
        match ranges sel with
        | [] => IndexSizeError
        | (startOffset, endOffset) :: _ =>
            Returned
              (mkTools (selectedText t) false (annotationColor t))
              (Some {| Annotation.id := "annotation-" +:+ pretty nowMs;
                       Annotation.type := type;
                       Annotation.content := Some (selectedText t);
                       Annotation.color := Some (annotationColor t);
                       Annotation.user := Viewer.currentUser;
                       Annotation.timestamp := nowIso;
                       Annotation.position :=
                         {| Annotation.start := startOffset;
                            Annotation.end_ := endOffset;
                            Annotation.page := Some currentPage |} |})
        end
    end.

(** [onChange={e => setAnnotationColor(e.target.value)}] *)
Definition setAnnotationColor (color : string) (t : Tools) : Tools :=
  mkTools (selectedText t) (showAnnotationTools t) color.

(** [annotations.filter(a => a.position.page === index + 1)] *)
Definition sectionAnnotations (index : nat) (annotations : list Annotation.t)
    : list Annotation.t :=
  filter (fun a => Annotation.page (Annotation.position a) = Some (Z.of_nat index + 1))
         annotations.

(** What happens to the tools: a mouse-up with the current selection, a
    colour pick, or a click on one of the three tool buttons, which exist
    only while the tools are shown. *)
Inductive Event :=
| MouseUp (selection : option Selection)
| PickColor (color : string)
| ClickTool (type : AnnotationType) (document : option Document.t)
            (currentPage : number) (selection : option Selection)
            (nowMs : Z) (nowIso : string).

(** The tools after an event; a throwing handler leaves the state as it
    was. *)
Definition after (t : Tools) (e : Event) : Tools :=
  match e with
  | MouseUp selection => handleTextSelection selection t
  | PickColor color => setAnnotationColor color t
  | ClickTool type document currentPage selection nowMs nowIso =>
      if showAnnotationTools t then
        match handleAnnotation type document currentPage selection nowMs nowIso t with
        | Returned t' _ => t'
        | IndexSizeError => t
        end
      else t
  end.

(** While the tools are shown there is a text to annotate. *)
Definition toolsHaveText (t : Tools) : Prop :=
  showAnnotationTools t = true -> selectedText t <> "".

End Annotate.


(** Every cursor of the store is filed under the user it belongs to. *)
Definition cursorsKeyed (s : Slice.CollaborationState) : Prop :=
  forall u c, Slice.cursors s !! u = Some c -> Slice.cursorUserId c = u.

(** Actions that never take a comment out of the store. *)
Definition keepsComments (a : Slice.Action) : bool :=
  match a with
  | Slice.RemoveComment _ _ | Slice.ClearCollaborationState => false
  | _ => true
  end.

(** The ids of the comments an action adds to document [d], when the
    document id is not the name of a member of [Object.prototype]. *)
Definition addedIds (d : string) (a : Slice.Action) : list number :=
  match a with
  | Slice.AddComment d' c => if bool_decide (d' = d) then [Slice.id c] else []
  | _ => []
  end.

(** Messages that assign the lock fields of the editor. *)
Definition lockEvent (data : Editor.ServerMessage) : bool :=
  match data with
  | Editor.document_locked _ | Editor.document_unlocked => true
  | _ => false
  end.

(** ** Sample data *)

Module Sample.

Definition origin : Position := {| x := 0; y := 0; page := 1 |}.

Definition note (i : number) (author text : string) : Slice.Comment :=
  {| Slice.id := i; Slice.userId := author; Slice.content := text;
     Slice.position := origin; Slice.createdAt := "2024-01-01T00:00:00.000Z";
     Slice.replies := [] |}.

Definition contract : Types.Document.t :=
  {| Types.Document.id := "doc1"; Types.Document.name := "contract.pdf" |}.

(** A store with one comment, numbered 1, on "doc1". *)
Definition oneComment : Slice.CollaborationState :=
  Slice.run "2024-01-01T00:00:00.000Z"
    [ Slice.SetActiveDocument "doc1";
      Slice.AddComment "doc1" (note 1 "alice" "review section 2") ]
    Slice.initialState.


(** A document of the document store. *)
Definition report (i : string) : Documents.Document :=
  {| Documents.id := i; Documents.name := "report.pdf"; Documents.size := 1024;
     Documents.type := "application/pdf";
     Documents.uploadedAt := "2024-01-01T00:00:00.000Z";
     Documents.uploadedBy := "alice"; Documents.analysis := None;
     Documents.blockchainHash := None; Documents.ipfsHash := None;
     Documents.isVerified := false; Documents.sharedWith := [] |}.

End Sample.

(** * Properties *)

(** ** Lists: [find] and in-place mutation of the element found *)

Section FindMutate.
Context {A : Type} (p : A -> bool) (f : A -> A).

Lemma find_split (l : list A) (a : A) :
  find p l = Some a ->
  exists l1 l2, l = l1 ++ a :: l2 /\ p a = true /\
                Forall (fun b => p b = false) l1 /\
                mutateFirst p f l = l1 ++ f a :: l2.
Proof.
  induction l as [|b l IH]; simpl; [discriminate|].
  destruct (p b) eqn:Hb.
  - intros [= ->]. exists [], l. repeat split; auto.
  - intros Hfind. destruct (IH Hfind) as (l1 & l2 & -> & Ha & Hl1 & Hm).
    exists (b :: l1), l2. rewrite Hm. repeat split; auto.
Qed.

Lemma find_none_mutateFirst (l : list A) :
  find p l = None -> mutateFirst p f l = l.
Proof.
  induction l as [|b l IH]; simpl; [reflexivity|].
  destruct (p b); [discriminate|]. intros H. now rewrite IH.
Qed.

Lemma mutateFirst_length (l : list A) : length (mutateFirst p f l) = length l.
Proof.
  induction l as [|b l IH]; simpl; [reflexivity|].
  destruct (p b); simpl; congruence.
Qed.

Lemma mutateFirst_fixed (l : list A) :
  (forall a, find p l = Some a -> f a = a) -> mutateFirst p f l = l.
Proof.
  induction l as [|b l IH]; simpl; [reflexivity|].
  destruct (p b); intros H.
  - now rewrite (H b eq_refl).
  - now rewrite IH.
Qed.

End FindMutate.

(** ** The edit lock *)

Lemma heldBySelf_spec (token : string) (st : Editor.EditorState) :
  Editor.heldBySelf token st = true <->
  Editor.isLocked st = true /\ Editor.lockOwner st = Some token.
Proof.
  unfold Editor.heldBySelf. rewrite andb_true_iff, bool_decide_eq_true. tauto.
Qed.

(** The Release button is what a participant that holds the lock sees. *)
Lemma heldBySelf_control (token : string) (st : Editor.EditorState) :
  Editor.heldBySelf token st = true <->
  Editor.documentControls token st = Editor.ReleaseLock.
Proof.
  unfold Editor.heldBySelf, Editor.documentControls.
  destruct (Editor.isLocked st); simpl; [|split; discriminate].
  destruct (bool_decide (Editor.lockOwner st = Some token)); split;
    first [reflexivity | discriminate].
Qed.

Lemma receive_app (msgs1 msgs2 : list Editor.ServerMessage) (st : Editor.EditorState) :
  Editor.receive (msgs1 ++ msgs2) st = Editor.receive msgs2 (Editor.receive msgs1 st).
Proof. unfold Editor.receive. apply fold_left_app. Qed.

(** Serving a request keeps the view of every participant in step with the
    lock: the requests of the others neither give it the lock nor take it
    away. *)
Lemma serve_observed (p : string) (r : LockManager.Request)
    (s : LockManager.LockState) (held : bool) :
  (held = true <-> s = LockManager.Locked p) ->
  (LockManager.learns p held (r, (LockManager.serve r s).2) = true <->
   (LockManager.serve r s).1 = LockManager.Locked p).
Proof.
  intros H.
  destruct r as [q|q], s as [|h]; simpl;
    repeat case_bool_decide; subst; simpl;
    repeat case_bool_decide; subst; simpl;
    try tauto;
    try (split; [intros E; first [discriminate E | apply H in E; congruence]
                |intros E; first [discriminate E | reflexivity
                                 | injection E as E; congruence | apply H; exact E]]).
Qed.

Lemma serveAll_observed (p : string) (requests : list LockManager.Request) :
  forall (s : LockManager.LockState) (held : bool),
    (held = true <-> s = LockManager.Locked p) ->
    (fold_left (LockManager.learns p) (LockManager.serveAll requests s).2 held = true <->
     (LockManager.serveAll requests s).1 = LockManager.Locked p).
Proof.
  induction requests as [|r rs IH]; intros s held H; simpl; [exact H|].
  apply IH, serve_observed, H.
Qed.

Lemma observes_holder (p : string) (requests : list LockManager.Request) :
  LockManager.observes p (LockManager.serveAll requests LockManager.Unlocked).2 = true <->
  (LockManager.serveAll requests LockManager.Unlocked).1 = LockManager.Locked p.
Proof.
  apply serveAll_observed. split; discriminate.
Qed.

(** An editor that applies the announcements of the served requests shows
    the lock as the lock manager has it. *)
Lemma serve_shown (r : LockManager.Request) (s : LockManager.LockState)
    (st : Editor.EditorState) :
  LockManager.shows st s ->
  LockManager.shows
    (Editor.receive (LockManager.announcement (r, (LockManager.serve r s).2)) st)
    (LockManager.serve r s).1.
Proof.
  intros H.
  destruct r as [q|q], s as [|h]; simpl in *;
    repeat case_bool_decide; subst; simpl; auto.
Qed.

Lemma serveAll_shown (requests : list LockManager.Request) :
  forall (s : LockManager.LockState) (st : Editor.EditorState),
    LockManager.shows st s ->
    LockManager.shows
      (Editor.receive (LockManager.announcements (LockManager.serveAll requests s).2) st)
      (LockManager.serveAll requests s).1.
Proof.
  induction requests as [|r rs IH]; intros s st H; simpl; [exact H|].
  unfold LockManager.announcements. simpl. rewrite receive_app.
  apply IH, serve_shown, H.
Qed.

Lemma shows_heldBySelf (token : string) (st : Editor.EditorState)
    (s : LockManager.LockState) :
  LockManager.shows st s ->
  (Editor.heldBySelf token st = true <-> s = LockManager.Locked token).
Proof.
  rewrite heldBySelf_spec.
  destruct s as [|h]; simpl; intros [Hl Ho]; rewrite Hl, Ho; split.
  - intros [E _]; discriminate E.
  - discriminate.
  - intros [_ E]. congruence.
  - intros E. split; congruence.
Qed.

(** C1: edit lock mutual exclusion.  Let the participants of a session send
    any sequence of acquire and release requests to the lock manager, which
    starts unlocked and serves them in order, answering each to its sender.
    A participant observes the lock as held by itself, from the answers to
    its own requests, exactly when the lock manager names it as the holder;
    so at most one participant observes the lock as its own, after the whole
    sequence and after every prefix of it.  An editor that has applied the
    announcements of the served requests shows the state of the lock
    manager, and its participant sees the lock as its own exactly when it
    observes it so from the answers. *)
Theorem lock_mutual_exclusion (requests : list LockManager.Request) :
  let served := LockManager.serveAll requests LockManager.Unlocked in
  (forall p, LockManager.observes p served.2 = true <->
             served.1 = LockManager.Locked p) /\
  (forall p q, LockManager.observes p served.2 = true ->
               LockManager.observes q served.2 = true -> p = q) /\
  (forall n p q,
      let answers :=
        (LockManager.serveAll (take n requests) LockManager.Unlocked).2 in
      LockManager.observes p answers = true ->
      LockManager.observes q answers = true -> p = q) /\
  (forall initialData token,
      let st := Editor.receive (LockManager.announcements served.2)
                               (Editor.initialEditor initialData) in
      LockManager.shows st served.1 /\
      Editor.heldBySelf token st = LockManager.observes token served.2).
Proof.
  assert (Hex : forall rs p q,
             LockManager.observes p
               (LockManager.serveAll rs LockManager.Unlocked).2 = true ->
             LockManager.observes q
               (LockManager.serveAll rs LockManager.Unlocked).2 = true -> p = q).
  { intros rs p q Hp Hq.
    apply observes_holder in Hp. apply observes_holder in Hq. congruence. }
  intros served. split; [|split; [|split]].
  - intros p. apply observes_holder.
  - apply Hex.
  - intros n p q answers. apply Hex.
  - intros initialData token st.
    assert (Hs : LockManager.shows st served.1).
    { apply serveAll_shown. split; reflexivity. }
    split; [exact Hs|].
    apply eq_true_iff_eq.
    rewrite (shows_heldBySelf token st _ Hs). symmetry. apply observes_holder.
Qed.


(** ** Resetting the store *)

(** C9: [clearCollaborationState] maps every state to the initial state: no
    active document, no cursors, no comments, the lock unheld with no holder
    and no time stamp, no participants, disconnected, no error.  It is a
    constant function, hence idempotent. *)
Theorem clearCollaborationState_is_initial (s : Slice.CollaborationState) :
  Slice.clearCollaborationState s = Slice.initialState /\
  (forall now, Slice.reducer now s Slice.ClearCollaborationState = Slice.initialState) /\
  (let s' := Slice.clearCollaborationState s in
   Slice.activeDocumentId s' = None /\
   Slice.cursors s' = ∅ /\
   Slice.comments s' = ∅ /\
   Slice.isLocked (Slice.documentLock s') = false /\
   Slice.lockedBy (Slice.documentLock s') = None /\
   Slice.lockedAt (Slice.documentLock s') = None /\
   Slice.participants s' = [] /\
   Slice.isConnected s' = false /\
   Slice.error s' = None) /\
  (forall t, Slice.clearCollaborationState s = Slice.clearCollaborationState t) /\
  Slice.clearCollaborationState (Slice.clearCollaborationState s)
    = Slice.clearCollaborationState s.
Proof.
  repeat split; reflexivity.
Qed.

(** ** Sending without a connection *)

Lemma guarded_without_connection (svc : Service.CollaborationService)
    (e : string -> Service.Emit) :
  Service.socket svc = None \/ Service.documentId svc = None ->
  Service.guarded svc e = svc.
Proof.
  unfold Service.guarded. intros [H|H]; rewrite H; [reflexivity|].
  now destruct (Service.socket svc).
Qed.

(** With a socket and a document id every send emits exactly one event. *)
Lemma guarded_with_connection (svc : Service.CollaborationService)
    (e : string -> Service.Emit) (sock : Service.Socket) (d : string) :
  Service.socket svc = Some sock -> Service.documentId svc = Some d -> d <> "" ->
  Service.outbox (Service.guarded svc e) = Service.outbox svc ++ [e d].
Proof.
  unfold Service.guarded, Service.outbox. intros -> -> Hd. simpl.
  destruct (String.eqb_spec d ""); [contradiction|]. reflexivity.
Qed.

(** C10: every send operation of the collaboration client is a silent
    no-op when no connection is established.  When the socket or the
    document id is null, [addComment] and [updateCursorPosition], like the
    other sends, return with the service unchanged, so nothing is emitted,
    and they cannot raise; [getActiveUsers] returns a promise already
    resolved to the empty list. *)
Theorem send_without_connection (svc : Service.CollaborationService) :
  Service.socket svc = None \/ Service.documentId svc = None ->
  (forall c, Service.addComment c svc = svc) /\
  (forall x y, Service.updateCursorPosition x y svc = svc) /\
  Service.getActiveUsers svc = (svc, Service.Resolved []) /\
  (forall a, Service.addAnnotation a svc = svc) /\
  (forall i, Service.removeAnnotation i svc = svc) /\
  (forall i, Service.resolveComment i svc = svc) /\
  (forall nowMs nowIso c, Service.sendMessage nowMs nowIso c svc = svc) /\
  Service.getDocumentHistory svc = (svc, Service.Resolved (Service.mkHistory [] [] [])).
Proof.
  intros H. repeat split; intros;
    try (apply guarded_without_connection; exact H).
  - unfold Service.getActiveUsers. destruct H as [H|H]; rewrite H; [reflexivity|].
    now destruct (Service.socket svc).
  - unfold Service.sendMessage. destruct (Service.user svc); [|reflexivity].
    apply guarded_without_connection; exact H.
  - unfold Service.getDocumentHistory. destruct H as [H|H]; rewrite H; [reflexivity|].
    now destruct (Service.socket svc).
Qed.

Lemma send_without_connection_witness :
  (forall c, Service.addComment c Service.initial = Service.initial) /\
  (forall c, Service.addComment c (Service.mkService (Some (Service.mkSocket [])) None None)
             = Service.mkService (Some (Service.mkSocket [])) None None).
Proof.
  split.
  - exact (proj1 (send_without_connection Service.initial (or_introl eq_refl))).
  - exact (proj1 (send_without_connection
                    (Service.mkService (Some (Service.mkSocket [])) None None)
                    (or_intror eq_refl))).
Defined.

(** ** Replies *)

(** ** Reads of a dictionary *)

Lemma member_lookup {A : Type} (k : string) (o : gmap string A) (a : A) :
  o !! k = Some a -> member k o = Own a.
Proof. unfold member. now intros ->. Qed.

Lemma member_plain {A : Type} (k : string) (o : gmap string A) :
  inheritedName k = false ->
  member k o = match o !! k with Some a => Own a | None => Missing end.
Proof. unfold member. now intros ->. Qed.

Lemma member_inherited {A : Type} (k : string) (o : gmap string A) :
  member k o = Inherited -> o !! k = None /\ inheritedName k = true.
Proof.
  unfold member. destruct (o !! k); [discriminate|].
  destruct (inheritedName k); [auto|discriminate].
Qed.

Lemma member_missing {A : Type} (k : string) (o : gmap string A) :
  member k o = Missing -> o !! k = None /\ inheritedName k = false.
Proof.
  unfold member. destruct (o !! k); [discriminate|].
  destruct (inheritedName k); [discriminate|auto].
Qed.

Lemma member_own {A : Type} (k : string) (o : gmap string A) (a : A) :
  member k o = Own a -> o !! k = Some a.
Proof.
  unfold member. destruct (o !! k); [now intros [= ->]|].
  destruct (inheritedName k); discriminate.
Qed.

(** ** Replies *)

Lemma commentsOf_lookup (d : string) (s : Slice.CollaborationState) (cs : list Slice.Comment) :
  Slice.comments s !! d = Some cs -> Slice.commentsOf d s = cs.
Proof. unfold Slice.commentsOf. now intros ->. Qed.

Lemma find_hasId_before (cid : number) (l : list Slice.Comment) :
  Forall (fun b => Slice.hasId cid b = false) l -> Forall (fun b => Slice.id b <> cid) l.
Proof.
  intros H. eapply Forall_impl; [exact H|].
  intros b Hb. unfold Slice.hasId in Hb. now apply Z.eqb_neq.
Qed.

(** Where the document id is not the name of an inherited member, a reply
    to a comment the document does not own changes nothing. *)
Lemma addReply_not_found
    (s : Slice.CollaborationState) (d : string) (cid : number) (r : Slice.Comment) :
  inheritedName d = false ->
  Slice.findComment s d cid = None -> Slice.addReply s d cid r = Returns s.
Proof.
  unfold Slice.findComment, Slice.commentsOf, Slice.addReply. intros Hd.
  rewrite (member_plain d _ Hd).
  destruct (Slice.comments s !! d) as [cs|]; [|reflexivity].
  simpl. now intros ->.
Qed.

(** C2 (as the code has it): [addReply] reports no [CommentNotFound].
    When the document owns a comment list and [commentId] names no comment
    in it, or when the document owns no list and its id is not the name of a
    member of [Object.prototype], the call returns with the store unchanged.
    When [commentId] names a comment, the reply is appended to the end of
    the reply list of the first comment with that id, and every other
    comment, every other document and every other field of the store stay
    as they were.  The remaining case, a document id such as "constructor"
    for which the read yields an inherited function, ends in a
    [TypeError]. *)
Theorem addReply_appends_or_ignores
    (s : Slice.CollaborationState) (d : string) (cid : number) (r : Slice.Comment) :
  (forall now, Slice.dispatch now s (Slice.AddReply d cid r) = Slice.addReply s d cid r) /\
  (forall e, Slice.addReply s d cid r <> Throws (Failure e)) /\
  (inheritedName d = false -> Slice.findComment s d cid = None ->
   Slice.addReply s d cid r = Returns s) /\
  match member d (Slice.comments s) with
  | Inherited => Slice.addReply s d cid r = Throws TypeError
  | Missing => Slice.addReply s d cid r = Returns s
  | Own cs =>
      match find (Slice.hasId cid) cs with
      | None => Slice.addReply s d cid r = Returns s
      | Some c =>
          exists before after s',
            Slice.addReply s d cid r = Returns s' /\
            cs = before ++ c :: after /\
            Forall (fun b => Slice.id b <> cid) before /\
            Slice.id c = cid /\
            Slice.commentsOf d s' = before ++ Slice.pushReply r c :: after /\
            Slice.pushReply r c
              = Slice.mkComment (Slice.id c) (Slice.userId c) (Slice.content c)
                  (Slice.position c) (Slice.createdAt c) (Slice.replies c ++ [r]) /\
            (forall d', d' <> d -> Slice.comments s' !! d' = Slice.comments s !! d') /\
            Slice.set_comments (Slice.comments s) s' = s
      end
  end.
Proof.
  split; [reflexivity|]. split; [|split; [apply addReply_not_found|]].
  - intros e. unfold Slice.addReply.
    destruct (member d (Slice.comments s)) as [cs| |]; try discriminate.
    destruct (find _ cs); discriminate.
  - unfold Slice.addReply.
    destruct (member d (Slice.comments s)) as [cs| |] eqn:Hm; try reflexivity.
    destruct (find (Slice.hasId cid) cs) as [c|] eqn:Hf; [|reflexivity].
    destruct (find_split (Slice.hasId cid) (Slice.pushReply r) cs c Hf)
      as (l1 & l2 & Hcs & Hc & Hl1 & Hmut).
    exists l1, l2. eexists. split; [reflexivity|].
    repeat split.
    + exact Hcs.
    + now apply find_hasId_before.
    + now apply Z.eqb_eq.
    + apply commentsOf_lookup. simpl. rewrite lookup_insert_eq. now rewrite Hmut.
    + intros d' Hd'. simpl. now rewrite lookup_insert_ne.
    + now destruct s.
Qed.

(** C2, the claim as stated fails: a reply to comment 2 of a document whose
    only comment is numbered 1 does not end in [CommentNotFound]; the call
    returns normally and the store is unchanged. *)
Lemma addReply_missing_comment_counterexample :
  Slice.commentsOf "doc1" Sample.oneComment
    = [Sample.note 1 "alice" "review section 2"] /\
  Slice.findComment Sample.oneComment "doc1" 2 = None /\
  Slice.dispatch "2024-01-01T00:00:01.000Z" Sample.oneComment
      (Slice.AddReply "doc1" 2 (Sample.note 3 "bob" "agreed"))
    = Returns Sample.oneComment /\
  Slice.dispatch "2024-01-01T00:00:01.000Z" Sample.oneComment
      (Slice.AddReply "doc1" 2 (Sample.note 3 "bob" "agreed"))
    <> Throws (Failure CommentNotFound).
Proof.
  assert (Hc : Slice.commentsOf "doc1" Sample.oneComment
               = [Sample.note 1 "alice" "review section 2"])
    by (vm_compute; reflexivity).
  assert (Hf : Slice.findComment Sample.oneComment "doc1" 2 = None).
  { unfold Slice.findComment. rewrite Hc. reflexivity. }
  split; [exact Hc|]. split; [exact Hf|].
  assert (Hr : Slice.dispatch "2024-01-01T00:00:01.000Z" Sample.oneComment
                 (Slice.AddReply "doc1" 2 (Sample.note 3 "bob" "agreed"))
               = Returns Sample.oneComment).
  { simpl. apply addReply_not_found; [reflexivity|exact Hf]. }
  split; [exact Hr|]. rewrite Hr. discriminate.
Qed.

(** ** Cursors *)

(** C4 (as the code has it): [updateCursor] does not look at the
    participant list and reports no [UnknownParticipant].  For every user
    id other than "__proto__", participant or not, it overwrites (or
    creates) that user's cursor with the new position and the current time,
    whatever was stored before; the last write wins, the other cursors and
    the rest of the store are untouched.  For "__proto__" the assignment
    reaches the setter of [Object.prototype] and Immer throws.  The editor
    builds a new object with a computed key, which gives every user id,
    that one included, a property of its own. *)
Theorem updateCursor_overwrites
    (now : string) (s : Slice.CollaborationState) (u : string) (pos : Position) :
  Slice.dispatch now s (Slice.UpdateCursor u pos) = Slice.updateCursor now s u pos /\
  (forall e, Slice.updateCursor now s u pos <> Throws (Failure e)) /\
  (u = "__proto__" -> Slice.updateCursor now s u pos = Throws ImmerError) /\
  (u <> "__proto__" ->
   exists s',
     Slice.updateCursor now s u pos = Returns s' /\
     Slice.cursors s' !! u = Some (Slice.mkCursor u pos now) /\
     (forall u', u' <> u -> Slice.cursors s' !! u' = Slice.cursors s !! u') /\
     Slice.set_cursors (Slice.cursors s) s' = s /\
     (forall now' pos',
        Slice.updateCursor now' s' u pos' = Slice.updateCursor now' s u pos')) /\
  (forall st : Editor.EditorState,
     let st' := Editor.handleMessage st (Editor.cursor_update u pos) in
     Editor.cursors st' !! u = Some pos /\
     (forall u', u' <> u -> Editor.cursors st' !! u' = Editor.cursors st !! u') /\
     Editor.comments st' = Editor.comments st /\
     Editor.isLocked st' = Editor.isLocked st /\
     Editor.lockOwner st' = Editor.lockOwner st).
Proof.
  split; [reflexivity|]. split; [|split; [|split]].
  - intros e. unfold Slice.updateCursor. case_bool_decide; discriminate.
  - intros ->. reflexivity.
  - intros Hu. unfold Slice.updateCursor.
    rewrite (bool_decide_eq_false_2 _ Hu). eexists. split; [reflexivity|].
    split; [apply lookup_insert_eq|].
    split; [intros u' Hu'; simpl; now rewrite lookup_insert_ne|].
    split; [now destruct s|].
    intros now' pos'. unfold Slice.set_cursors. simpl.
    now rewrite insert_insert_eq.
  - intros st st'. subst st'. simpl. split; [apply lookup_insert_eq|].
    split; [|auto]. intros u' Hu. now rewrite lookup_insert_ne.
Qed.

(** C4, the claim as stated fails: with "alice" the only participant, a
    cursor update for "mallory" does not end in [UnknownParticipant]; it
    returns normally and stores a cursor for "mallory". *)
Lemma updateCursor_unknown_participant_counterexample :
  let s := Slice.updateParticipants Slice.initialState ["alice"] in
  let now := "2024-01-01T00:00:00.000Z" in
  let s' := Slice.set_cursors {[ "mallory" := Slice.mkCursor "mallory" Sample.origin now ]} s in
  ("mallory" ∉ Slice.participants s) /\
  Slice.dispatch now s (Slice.UpdateCursor "mallory" Sample.origin) = Returns s' /\
  Slice.cursors s' !! "mallory" = Some (Slice.mkCursor "mallory" Sample.origin now) /\
  Slice.dispatch now s (Slice.UpdateCursor "mallory" Sample.origin)
    <> Throws (Failure UnknownParticipant).
Proof.
  simpl. split; [|split; [reflexivity|split; [apply lookup_insert_eq|discriminate]]].
  intros H. apply list_elem_of_singleton in H. discriminate.
Qed.

(** ** Departures and the lock *)

Lemma step_holder_present (s : Session.Session) (e : Session.Event) :
  (forall h, Session.lock s = LockManager.Locked h -> h ∈ Session.participants s) ->
  forall h, Session.lock (Session.step s e) = LockManager.Locked h ->
            h ∈ Session.participants (Session.step s e).
Proof.
  intros H h. destruct e as [p|r|p]; simpl.
  - unfold Session.join. case_bool_decide; simpl; [apply H|].
    intros Hh. apply elem_of_app. left. now apply H.
  - unfold Session.onMessage. case_bool_decide as Hp; simpl; [|apply H].
    destruct r as [p|p], (Session.lock s) as [|h'] eqn:Hl; simpl;
      repeat case_bool_decide; simpl; try discriminate;
      intros [= <-]; auto.
  - destruct (Session.lock s) as [|h'] eqn:Hl; [discriminate|].
    case_bool_decide as Hh; [discriminate|]. intros [= <-].
    apply list_elem_of_filter. split; [exact Hh|]. now apply H.
Qed.

Lemma run_holder_present (events : list Session.Event) (h : string) :
  Session.lock (Session.run events) = LockManager.Locked h ->
  h ∈ Session.participants (Session.run events).
Proof.
  unfold Session.run. revert h.
  induction events as [|e events IH] using rev_ind; intros h.
  - discriminate.
  - rewrite fold_left_app. simpl. apply step_holder_present. exact IH.
Qed.

(** C5: the lock is released with the departure of its holder.  In every
    state the session reaches from its creation through connections, lock
    messages and disconnections, the holder of the lock is a participant of
    the session.  The disconnection of the holder removes it and unlocks in
    the same step, that of anyone else leaves the lock alone.  While a
    holder is recorded, an acquire of any other participant is refused and
    changes nothing; once the holder has disconnected, the acquire of a
    remaining participant is granted.  On the client, [disconnect] closes
    the socket and forgets the session without sending anything, and the
    editor that receives [document_unlocked] shows the lock as free
    whoever held it. *)
Theorem holder_departure_releases_lock :
  (forall events h,
     Session.lock (Session.run events) = LockManager.Locked h ->
     h ∈ Session.participants (Session.run events)) /\
  (forall s p,
     Session.lock s = LockManager.Locked p ->
     Session.lock (Session.step s (Session.Disconnect p)) = LockManager.Unlocked /\
     p ∉ Session.participants (Session.step s (Session.Disconnect p))) /\
  (forall s p h,
     Session.lock s = LockManager.Locked h -> h <> p ->
     Session.lock (Session.step s (Session.Disconnect p)) = LockManager.Locked h) /\
  (forall s p q,
     Session.lock s = LockManager.Locked p -> q <> p ->
     Session.onMessage (LockManager.Acquire q) s
     = (s, Some (if bool_decide (q ∈ Session.participants s)
                 then LockHeld p else UnknownParticipant))) /\
  (forall s p q,
     Session.lock s = LockManager.Locked p -> q ∈ Session.participants s -> q <> p ->
     Session.onMessage (LockManager.Acquire q) (Session.onDisconnect p s)
     = ({| Session.participants := filter (fun r => r ≠ p) (Session.participants s);
           Session.lock := LockManager.Locked q |}, None)) /\
  (forall svc,
     Service.disconnecting svc = (Service.socket svc, Service.initial) /\
     Service.disconnect svc = Service.initial /\
     Service.outbox (Service.disconnect svc) = []) /\
  (forall st,
     LockManager.shows (Editor.handleMessage st Editor.document_unlocked)
                       LockManager.Unlocked /\
     forall p, Editor.heldBySelf p (Editor.handleMessage st Editor.document_unlocked)
               = false).
Proof.
  split; [exact run_holder_present|].
  split; [|split; [|split; [|split; [|split]]]].
  - intros s p Hl. simpl. rewrite Hl. rewrite bool_decide_eq_true_2 by reflexivity.
    split; [reflexivity|]. intros Hin. apply list_elem_of_filter in Hin as [Hne _].
    now apply Hne.
  - intros s p h Hl Hne. simpl. rewrite Hl. now rewrite bool_decide_eq_false_2.
  - intros s p q Hl Hne. unfold Session.onMessage.
    case_bool_decide; [|reflexivity].
    rewrite Hl. simpl. rewrite bool_decide_eq_false_2 by congruence. simpl.
    destruct s as [ps l]. simpl in *. now subst.
  - intros s p q Hl Hin Hne. unfold Session.onMessage, Session.onDisconnect. simpl.
    rewrite Hl. rewrite (bool_decide_eq_true_2 (p = p)) by reflexivity.
    rewrite bool_decide_eq_true_2; [reflexivity|].
    apply list_elem_of_filter. split; [exact Hne|exact Hin].
  - intros svc. repeat split.
  - intros st. repeat split.
Qed.

(** ** Comment identifiers *)






(** ** Creation order *)

Section FindMutateMore.
Context {A B : Type} (p : A -> bool) (f : A -> A).

Lemma mutateFirst_map (g : A -> B) (l : list A) :
  (forall a, g (f a) = g a) -> map g (mutateFirst p f l) = map g l.
Proof.
  intros Hg. induction l as [|a l IH]; simpl; [reflexivity|].
  destruct (p a); simpl; congruence.
Qed.

Lemma find_first_match (l1 l2 : list A) (a : A) :
  Forall (fun b => p b = false) l1 -> p a = true ->
  find p (l1 ++ a :: l2) = Some a /\
  mutateFirst p f (l1 ++ a :: l2) = l1 ++ f a :: l2.
Proof.
  intros Hl1 Ha. induction Hl1 as [|b l1 Hb _ [IH1 IH2]]; simpl.
  - now rewrite Ha.
  - rewrite Hb. split; congruence.
Qed.

End FindMutateMore.

(** Where the read of the document's list does not yield an inherited
    member, [addComment] puts the comment at the end of the list. *)
Lemma addComment_appends (s : Slice.CollaborationState) (d : string) (c : Slice.Comment) :
  member d (Slice.comments s) <> Inherited ->
  Slice.addComment s d c
  = Returns (Slice.set_comments
               (<[d := Slice.commentsOf d s ++ [c]]> (Slice.comments s)) s).
Proof.
  unfold Slice.addComment, Slice.commentsOf. intros H.
  destruct (member d (Slice.comments s)) as [cs| |] eqn:Hm.
  - now rewrite (member_own _ _ _ Hm).
  - contradiction.
  - now rewrite (proj1 (member_missing _ _ Hm)).
Qed.

Lemma plain_not_inherited {A : Type} (k : string) (o : gmap string A) :
  inheritedName k = false -> member k o <> Inherited.
Proof.
  intros Hk Hm. apply member_inherited in Hm as [_ Hm]. congruence.
Qed.

Lemma commentsOf_addComment (now : string) (s : Slice.CollaborationState) (d : string)
    (c : Slice.Comment) :
  inheritedName d = false ->
  Slice.commentsOf d (Slice.reducer now s (Slice.AddComment d c))
  = Slice.commentsOf d s ++ [c].
Proof.
  intros Hd. unfold Slice.reducer. simpl.
  rewrite addComment_appends by now apply plain_not_inherited.
  unfold Slice.commentsOf at 1. simpl. now rewrite lookup_insert_eq.
Qed.

Lemma commentsOf_addComment_other (now : string) (s : Slice.CollaborationState)
    (d d' : string) (c : Slice.Comment) :
  d' <> d ->
  Slice.commentsOf d (Slice.reducer now s (Slice.AddComment d' c)) = Slice.commentsOf d s.
Proof.
  intros H. unfold Slice.reducer, Slice.commentsOf. simpl. unfold Slice.addComment.
  destruct (member d' (Slice.comments s)); simpl; try reflexivity;
    now rewrite lookup_insert_ne.
Qed.

(** Mutating the first comment with a given id of document [d'], in a way
    that keeps ids, keeps the ids of every document in order. *)
Lemma mutate_keeps_ids (s : Slice.CollaborationState) (d d' : string) (cid : number)
    (f : Slice.Comment -> Slice.Comment) (cs : list Slice.Comment) :
  (forall c, Slice.id (f c) = Slice.id c) ->
  Slice.comments s !! d' = Some cs ->
  map Slice.id
    (Slice.commentsOf d
       (Slice.set_comments
          (<[d' := mutateFirst (Slice.hasId cid) f cs]> (Slice.comments s)) s))
  = map Slice.id (Slice.commentsOf d s).
Proof.
  intros Hf Hcs. unfold Slice.commentsOf. simpl.
  destruct (decide (d' = d)) as [->|Hne].
  - rewrite lookup_insert_eq, Hcs. simpl. now apply mutateFirst_map.
  - now rewrite lookup_insert_ne.
Qed.

Lemma reducer_ids (now : string) (s : Slice.CollaborationState) (d : string)
    (a : Slice.Action) :
  inheritedName d = false ->
  keepsComments a = true ->
  map Slice.id (Slice.commentsOf d (Slice.reducer now s a))
  = map Slice.id (Slice.commentsOf d s) ++ addedIds d a.
Proof.
  intros Hd.
  destruct a; simpl; try discriminate; intros _; rewrite ?app_nil_r;
    try reflexivity.
  - unfold Slice.reducer. simpl. unfold Slice.setActiveDocument.
    case_bool_decide; [reflexivity|].
    destruct (member payload (Slice.comments s)) eqn:Hm; try reflexivity.
    unfold Slice.commentsOf. simpl.
    destruct (decide (payload = d)) as [->|Hne].
    + rewrite lookup_insert_eq. now rewrite (proj1 (member_missing _ _ Hm)).
    + now rewrite lookup_insert_ne.
  - unfold Slice.reducer. simpl. unfold Slice.updateCursor.
    case_bool_decide; reflexivity.
  - case_bool_decide as Heq.
    + subst. rewrite commentsOf_addComment by exact Hd. now rewrite map_app.
    + rewrite commentsOf_addComment_other by exact Heq. now rewrite app_nil_r.
  - unfold Slice.reducer. simpl. unfold Slice.updateComment.
    destruct (member documentId (Slice.comments s)) as [cs| |] eqn:Hm;
      try reflexivity.
    destruct (find _ _); [|reflexivity].
    apply mutate_keeps_ids; [reflexivity|]. now apply member_own.
  - unfold Slice.reducer. simpl. unfold Slice.addReply.
    destruct (member documentId (Slice.comments s)) as [cs| |] eqn:Hm;
      try reflexivity.
    destruct (find _ _); [|reflexivity].
    apply mutate_keeps_ids; [reflexivity|]. now apply member_own.
Qed.

Lemma run_ids (now : string) (d : string) (ops : list Slice.Action)
    (s : Slice.CollaborationState) :
  inheritedName d = false ->
  forallb keepsComments ops = true ->
  map Slice.id (Slice.commentsOf d (Slice.run now ops s))
  = map Slice.id (Slice.commentsOf d s) ++ flat_map (addedIds d) ops.
Proof.
  intros Hd. unfold Slice.run. revert s.
  induction ops as [|a ops IH]; intros s H; simpl.
  - now rewrite app_nil_r.
  - simpl in H. apply andb_true_iff in H as [Ha Hops].
    rewrite IH by exact Hops. rewrite reducer_ids by assumption.
    now rewrite <- app_assoc.
Qed.

Lemma addReply_at (now : string) (s : Slice.CollaborationState) (d : string)
    (cid : number) (before after : list Slice.Comment) (c r : Slice.Comment) :
  Slice.commentsOf d s = before ++ c :: after ->
  Forall (fun b => Slice.id b <> cid) before -> Slice.id c = cid ->
  Slice.dispatch now s (Slice.AddReply d cid r)
  = Returns (Slice.set_comments
               (<[d := before ++ Slice.pushReply r c :: after]> (Slice.comments s)) s).
Proof.
  intros Hcs Hbefore Hc.
  assert (Hlook : Slice.comments s !! d = Some (before ++ c :: after)).
  { unfold Slice.commentsOf in Hcs.
    destruct (Slice.comments s !! d) as [cs|]; simpl in Hcs; [now subst|].
    now destruct before. }
  assert (Hp : Forall (fun b => Slice.hasId cid b = false) before).
  { eapply Forall_impl; [exact Hbefore|]. intros b Hb. now apply Z.eqb_neq. }
  assert (Hpc : Slice.hasId cid c = true) by now apply Z.eqb_eq.
  destruct (find_first_match (Slice.hasId cid) (Slice.pushReply r) before after c Hp Hpc)
    as [Hfind Hmut].
  simpl. unfold Slice.addReply.
  rewrite (member_lookup _ _ _ Hlook), Hfind. now rewrite Hmut.
Qed.

Lemma addReplies_at (now : string) (rs : list Slice.Comment) (s : Slice.CollaborationState)
    (d : string) (cid : number) (before after : list Slice.Comment) (c : Slice.Comment) :
  Slice.commentsOf d s = before ++ c :: after ->
  Forall (fun b => Slice.id b <> cid) before -> Slice.id c = cid ->
  Slice.commentsOf d (Slice.run now (map (Slice.AddReply d cid) rs) s)
  = before
    ++ Slice.mkComment (Slice.id c) (Slice.userId c) (Slice.content c)
         (Slice.position c) (Slice.createdAt c) (Slice.replies c ++ rs)
    :: after.
Proof.
  unfold Slice.run.
  revert s c. induction rs as [|r rs IH]; intros s c Hcs Hbefore Hc; simpl.
  - rewrite app_nil_r. now destruct c.
  - unfold Slice.reducer at 2.
    rewrite (addReply_at now s d cid before after c r Hcs Hbefore Hc).
    rewrite (IH _ (Slice.pushReply r c)); auto.
    + simpl. now rewrite <- app_assoc.
    + unfold Slice.commentsOf. simpl. now rewrite lookup_insert_eq.
Qed.

(** C8: comments are kept in creation order, except where [addComment]
    misses a case.  For a document id whose read yields an inherited
    member of [Object.prototype], such as "constructor" on a store that
    owns no list for it, the test [!state.comments[documentId]] passes over
    the creation of the list and [push] is called on a function:
    [addComment] throws a [TypeError] and the comment is not added.  For
    every other document id [addComment] appends the new comment to the end
    of the document's list, so a run of additions leaves the comments in the
    order they were added, and no action other than a removal or a reset
    reorders or drops a comment.  A reply is appended to the end of its
    parent's reply list, so a run of replies to a comment leaves them in
    the order they were sent.  The editor appends a [new_comment] in the
    same way. *)
Theorem addComment_appends_unless_inherited :
  (forall now c,
     Slice.dispatch now Slice.initialState (Slice.AddComment "constructor" c)
     = Throws TypeError /\
     Slice.commentsOf "constructor"
       (Slice.reducer now Slice.initialState (Slice.AddComment "constructor" c)) = []) /\
  (forall s d c,
     member d (Slice.comments s) = Inherited ->
     Slice.addComment s d c = Throws TypeError) /\
  (forall now s d c,
     member d (Slice.comments s) <> Inherited ->
     Slice.dispatch now s (Slice.AddComment d c)
     = Returns (Slice.set_comments
                  (<[d := Slice.commentsOf d s ++ [c]]> (Slice.comments s)) s)) /\
  (forall now cs s d,
     inheritedName d = false ->
     Slice.commentsOf d (Slice.run now (map (Slice.AddComment d) cs) s)
     = Slice.commentsOf d s ++ cs) /\
  (forall now d ops s,
     inheritedName d = false ->
     forallb keepsComments ops = true ->
     map Slice.id (Slice.commentsOf d (Slice.run now ops s))
     = map Slice.id (Slice.commentsOf d s) ++ flat_map (addedIds d) ops) /\
  (forall now rs s d cid before after c,
     Slice.commentsOf d s = before ++ c :: after ->
     Forall (fun b => Slice.id b <> cid) before -> Slice.id c = cid ->
     Slice.commentsOf d (Slice.run now (map (Slice.AddReply d cid) rs) s)
     = before
       ++ Slice.mkComment (Slice.id c) (Slice.userId c) (Slice.content c)
            (Slice.position c) (Slice.createdAt c) (Slice.replies c ++ rs)
       :: after) /\
  (forall st c,
     Editor.comments (Editor.handleMessage st (Editor.new_comment c))
     = Editor.comments st ++ [c]).
Proof.
  split; [intros now c; split; reflexivity|].
  split; [intros s d c Hm; unfold Slice.addComment; now rewrite Hm|].
  split; [intros now s d c Hm; now apply addComment_appends|].
  split; [|split; [|split]].
  - intros now cs s d Hd. unfold Slice.run. revert s.
    induction cs as [|c cs IH]; intros s; simpl.
    + now rewrite app_nil_r.
    + rewrite IH, commentsOf_addComment by exact Hd. now rewrite <- app_assoc.
  - intros now d ops s. apply run_ids.
  - intros now rs s d cid before after c. apply addReplies_at.
  - reflexivity.
Qed.

(** ** Acquiring the lock *)

Lemma shows_locked_by_other (p other : string) (st : Editor.EditorState) :
  other <> p -> LockManager.shows st (LockManager.Locked other) ->
  Editor.documentControls p st = Editor.LockedBy (Some other).
Proof.
  intros Hne [Hl Ho]. unfold Editor.documentControls. rewrite Hl, Ho. simpl.
  rewrite bool_decide_eq_false_2; [reflexivity|]. intros [= ->]. now apply Hne.
Qed.

Lemma shows_locked_by_self (p : string) (st : Editor.EditorState) :
  LockManager.shows st (LockManager.Locked p) ->
  Editor.documentControls p st = Editor.ReleaseLock.
Proof.
  intros [Hl Ho]. unfold Editor.documentControls. rewrite Hl, Ho. simpl.
  now rewrite bool_decide_eq_true_2.
Qed.

(** C6: [acquire(participantId)] from Unlocked moves the lock to
    Locked(participantId) and succeeds; from Locked(other) it fails with
    [LockHeld] carrying the current holder and leaves the lock as it was;
    from Locked(participantId) it succeeds and leaves the lock as it was.
    So a success always leaves the caller as the holder and a failure
    never changes the lock.  The editor matches this: while it shows
    Unlocked it offers "Lock for Editing", whose click sends [acquire_lock],
    and the announcement [document_locked] for the caller makes it show
    Locked(participantId); while it shows Locked(other) it offers no control
    and displays that holder; while it shows Locked(participantId) it offers
    the release, and a repeated announcement changes nothing.  A click
    sends [acquire_lock] exactly when the editor's lock flag is unset. *)
Theorem acquire_transitions (p : string) :
  LockManager.acquire p LockManager.Unlocked = (LockManager.Locked p, None) /\
  (forall other, other <> p ->
     LockManager.acquire p (LockManager.Locked other)
     = (LockManager.Locked other, Some (LockHeld other))) /\
  LockManager.acquire p (LockManager.Locked p) = (LockManager.Locked p, None) /\
  (forall s, (LockManager.acquire p s).2 = None ->
     (LockManager.acquire p s).1 = LockManager.Locked p) /\
  (forall s e, (LockManager.acquire p s).2 = Some e ->
     (LockManager.acquire p s).1 = s /\
     exists other, s = LockManager.Locked other /\ other <> p /\ e = LockHeld other) /\
  (forall st, LockManager.shows st LockManager.Unlocked ->
     Editor.documentControls p st = Editor.LockForEditing /\
     Editor.onClick (Editor.documentControls p st) = [Editor.acquire_lock] /\
     LockManager.shows (Editor.handleMessage st (Editor.document_locked p))
                       (LockManager.Locked p)) /\
  (forall st other, other <> p -> LockManager.shows st (LockManager.Locked other) ->
     Editor.documentControls p st = Editor.LockedBy (Some other) /\
     Editor.onClick (Editor.documentControls p st) = []) /\
  (forall st, LockManager.shows st (LockManager.Locked p) ->
     Editor.documentControls p st = Editor.ReleaseLock /\
     Editor.handleMessage st (Editor.document_locked p) = st) /\
  (forall st, Editor.onClick (Editor.documentControls p st) = [Editor.acquire_lock]
              <-> Editor.isLocked st = false).
Proof.
  split; [reflexivity|]. split.
  { intros other Hne. simpl. now rewrite bool_decide_eq_false_2. }
  split.
  { simpl. now rewrite bool_decide_eq_true_2. }
  split.
  { intros [|h]; simpl; [reflexivity|].
    case_bool_decide as Hh; simpl; [now subst|discriminate]. }
  split.
  { intros [|h] e; simpl; [discriminate|].
    case_bool_decide as Hh; simpl; [discriminate|].
    intros [= <-]. split; [reflexivity|]. now exists h. }
  split.
  { intros st [Hl Ho]. unfold Editor.documentControls. rewrite Hl. simpl.
    repeat split. }
  split.
  { intros st other Hne Hs. rewrite (shows_locked_by_other p other st Hne Hs).
    split; reflexivity. }
  split.
  { intros st Hs. split; [now apply shows_locked_by_self|].
    destruct Hs as [Hl Ho]. destruct st; simpl in *. now subst. }
  intros st. unfold Editor.documentControls.
  destruct (Editor.isLocked st); simpl; [|split; reflexivity].
  destruct (bool_decide _); simpl; split; discriminate.
Qed.

(** ** Resolving a comment *)

Lemma hasId_false_ne (cid : string) (l : list Types.Comment.t) :
  Forall (fun b => CommentThread.hasId cid b = false) l ->
  Forall (fun b => Types.Comment.id b <> cid) l.
Proof.
  intros H. eapply Forall_impl; [exact H|].
  intros b Hb. now apply String.eqb_neq.
Qed.

(** C7: [resolve(commentId)] on an existing comment sets its resolved flag
    to true and changes no other field of that comment and no other
    comment; on an already resolved comment it succeeds and leaves the whole
    list as it was, and resolving again after a resolution changes nothing.
    (An absent comment gives [CommentNotFound].)  The client asks for it
    with a [comment:resolve] event that carries the document id and the
    comment id and nothing else, and in the viewer the Resolve button is no
    longer rendered for the comment afterwards. *)
Theorem resolve_sets_flag_only (cid : string) (comments : list Types.Comment.t) :
  (forall svc sock d,
     Service.socket svc = Some sock -> Service.documentId svc = Some d -> d <> "" ->
     Service.outbox (Service.resolveComment cid svc)
     = Service.outbox svc ++ [Service.comment_resolve d cid]) /\
  match find (CommentThread.hasId cid) comments with
  | None => CommentThread.resolve cid comments = inl CommentNotFound
  | Some c =>
      exists before after,
        comments = before ++ c :: after /\
        Forall (fun b => Types.Comment.id b <> cid) before /\
        Types.Comment.id c = cid /\
        CommentThread.resolve cid comments
          = inr (before ++ CommentThread.markResolved c :: after) /\
        CommentThread.markResolved c
          = Types.Comment.mk (Types.Comment.id c) (Types.Comment.content c)
              (Types.Comment.user c) (Types.Comment.timestamp c)
              (Types.Comment.position c) (Some true) /\
        (Types.Comment.resolved c = Some true ->
           CommentThread.resolve cid comments = inr comments) /\
        CommentThread.resolve cid (before ++ CommentThread.markResolved c :: after)
          = inr (before ++ CommentThread.markResolved c :: after) /\
        Viewer.showsResolve (CommentThread.markResolved c) = false
  end.
Proof.
  split.
  { intros svc sock d Hs Hd Hne. unfold Service.resolveComment.
    now rewrite (guarded_with_connection svc _ sock d Hs Hd Hne). }
  unfold CommentThread.resolve.
  destruct (find (CommentThread.hasId cid) comments) as [c|] eqn:Hf; [|reflexivity].
  destruct (find_split (CommentThread.hasId cid) CommentThread.markResolved comments c Hf)
    as (l1 & l2 & Hcs & Hc & Hl1 & Hm).
  exists l1, l2. rewrite Hm.
  split; [exact Hcs|]. split; [now apply hasId_false_ne|].
  split; [now apply String.eqb_eq|]. split; [reflexivity|].
  split; [reflexivity|]. split; [|split; [|reflexivity]].
  - intros Hres. f_equal. rewrite Hcs. f_equal.
    destruct c; simpl in *. now subst.
  - destruct (find_first_match (CommentThread.hasId cid) CommentThread.markResolved
                l1 l2 (CommentThread.markResolved c) Hl1 Hc) as [Hf' Hm'].
    now rewrite Hf', Hm'.
Qed.

(** ** The operations at work *)

(** Alice takes the lock: her editor offers the release, Bob's names her;
    after the unlock announcement both offer the lock again. *)
Example lock_round_trip :
  let locked := Editor.receive [Editor.document_locked "alice"] (Editor.initialEditor None) in
  let freed := Editor.handleMessage locked Editor.document_unlocked in
  Editor.documentControls "alice" locked = Editor.ReleaseLock /\
  Editor.documentControls "bob" locked = Editor.LockedBy (Some "alice") /\
  Editor.documentControls "alice" freed = Editor.LockForEditing /\
  Editor.documentControls "bob" freed = Editor.LockForEditing /\
  LockManager.acquire "bob" (LockManager.Locked "alice")
    = (LockManager.Locked "alice", Some (LockHeld "alice")).
Proof. repeat split. Qed.

(** A reply to the comment numbered 1 lands at the end of its replies. *)
Example reply_lands_under_comment :
  Slice.commentsOf "doc1"
    (Slice.reducer "2024-01-01T00:00:01.000Z" Sample.oneComment
       (Slice.AddReply "doc1" 1 (Sample.note 2 "bob" "agreed")))
  = [ Slice.mkComment 1 "alice" "review section 2" Sample.origin
        "2024-01-01T00:00:00.000Z" [Sample.note 2 "bob" "agreed"] ].
Proof. vm_compute. reflexivity. Qed.

(** The scenario of the session design: Alice and Bob join, Alice takes
    the lock, Bob is refused; Alice disconnects, and Bob is granted it. *)
Example holder_leaves_and_lock_moves_on :
  let both := Session.run [Session.Connect "alice"; Session.Connect "bob";
                           Session.Message (LockManager.Acquire "alice")] in
  both = {| Session.participants := ["alice"; "bob"];
            Session.lock := LockManager.Locked "alice" |} /\
  Session.onMessage (LockManager.Acquire "bob") both = (both, Some (LockHeld "alice")) /\
  Session.onDisconnect "alice" both
    = {| Session.participants := ["bob"]; Session.lock := LockManager.Unlocked |} /\
  Session.onMessage (LockManager.Acquire "bob") (Session.onDisconnect "alice" both)
    = ({| Session.participants := ["bob"]; Session.lock := LockManager.Locked "bob" |},
       None).
Proof. vm_compute. repeat split. Qed.

(** Two participants ask for the lock in turn: only the first is told it
    holds it, and it keeps it until its own release. *)
Example second_acquire_is_refused :
  let answers :=
    (LockManager.serveAll [LockManager.Acquire "alice"; LockManager.Acquire "bob";
                           LockManager.Release "bob"] LockManager.Unlocked).2 in
  answers = [ (LockManager.Acquire "alice", None);
              (LockManager.Acquire "bob", Some (LockHeld "alice"));
              (LockManager.Release "bob", Some NotLockHolder) ] /\
  LockManager.observes "alice" answers = true /\
  LockManager.observes "bob" answers = false /\
  LockManager.announcements answers = [Editor.document_locked "alice"].
Proof. vm_compute. repeat split. Qed.

(** Once connected, a send emits its event with the document id. *)
Example connected_send_emits (u : Types.User.t) (c : Types.Comment.t) :
  Service.outbox (Service.addComment c (Service.connect "doc1" u Service.initial))
  = [Service.comment_add "doc1" c].
Proof. reflexivity. Qed.

(** A document id may be the empty string; the guard treats it as absent. *)
Example empty_document_id_sends_nothing (u : Types.User.t) (c : Types.Comment.t) :
  Service.outbox (Service.addComment c (Service.connect "" u Service.initial)) = [].
Proof. reflexivity. Qed.

(** * Further properties of the store *)

(** ** Switching documents *)

(** X1: switching the active document loses no comment.  For "__proto__"
    the assignment to the comment table makes Immer throw.  For every other
    document id the reducer returns, every document shows the comments it
    showed before, and the new active document owns a comment list, empty
    if it had none, unless its id names an inherited member of
    [Object.prototype], in which case the table is left as it was.  The
    cursors, the lock and the participants are reset, the connection status
    and the error are kept, and switching twice to the same document is
    switching once. *)
Theorem setActiveDocument_keeps_comments (s : Slice.CollaborationState) (d : string) :
  (d = "__proto__" -> Slice.setActiveDocument s d = Throws ImmerError) /\
  (d <> "__proto__" ->
   exists s',
     Slice.setActiveDocument s d = Returns s' /\
     (forall d', Slice.commentsOf d' s' = Slice.commentsOf d' s) /\
     (inheritedName d = false -> Slice.comments s' !! d = Some (Slice.commentsOf d s)) /\
     (member d (Slice.comments s) = Inherited -> Slice.comments s' = Slice.comments s) /\
     (forall d', d' <> d -> Slice.comments s' !! d' = Slice.comments s !! d') /\
     Slice.activeDocumentId s' = Some d /\
     Slice.cursors s' = ∅ /\
     Slice.documentLock s' = Slice.unlocked /\
     Slice.participants s' = [] /\
     Slice.isConnected s' = Slice.isConnected s /\
     Slice.error s' = Slice.error s /\
     Slice.setActiveDocument s' d = Returns s').
Proof.
  split; [intros ->; reflexivity|].
  intros Hd. unfold Slice.setActiveDocument.
  rewrite (bool_decide_eq_false_2 _ Hd). eexists. split; [reflexivity|].
  cbn [Slice.comments Slice.activeDocumentId Slice.cursors Slice.documentLock
       Slice.participants Slice.isConnected Slice.error].
  destruct (member d (Slice.comments s)) as [cs| |] eqn:Hm.
  - rewrite Hm. repeat split; try discriminate.
    intros _. apply member_own in Hm. unfold Slice.commentsOf. now rewrite Hm.
  - rewrite Hm. repeat split.
    intros Hn. apply member_inherited in Hm as [_ Hm]. congruence.
  - destruct (member_missing _ _ Hm) as [Hnone Hplain].
    rewrite (member_lookup d (<[d := []]> (Slice.comments s)) [])
      by apply lookup_insert_eq.
    repeat split; try discriminate.
    + intros d'. unfold Slice.commentsOf. simpl.
      destruct (decide (d = d')) as [<-|Hne].
      * now rewrite lookup_insert_eq, Hnone.
      * now rewrite lookup_insert_ne.
    + intros _. unfold Slice.commentsOf. rewrite Hnone. apply lookup_insert_eq.
    + intros d' Hne. now rewrite lookup_insert_ne.
Qed.

(** ** Removing and editing comments *)

Lemma find_none_filter (cid : number) (l : list Slice.Comment) :
  find (Slice.hasId cid) l = None -> filter (fun c => Slice.id c ≠ cid) l = l.
Proof.
  induction l as [|c l IH]; simpl; [reflexivity|].
  unfold Slice.hasId at 1. destruct (Z.eqb_spec (Slice.id c) cid) as [Heq|Hne];
    [discriminate|].
  intros H. rewrite filter_cons_True by exact Hne. now rewrite IH.
Qed.

Lemma find_filter_none (cid : number) (l : list Slice.Comment) :
  find (Slice.hasId cid) (filter (fun c => Slice.id c ≠ cid) l) = None.
Proof.
  induction l as [|c l IH]; [reflexivity|].
  rewrite filter_cons. destruct (decide (Slice.id c ≠ cid)) as [Hne|Heq]; [|exact IH].
  simpl. unfold Slice.hasId at 1.
  destruct (Z.eqb_spec (Slice.id c) cid); [contradiction|exact IH].
Qed.

(** Where the read does not yield an inherited member and the document id
    is not "__proto__", [removeComment] returns, and the document shows its
    comments without those of the id. *)
Lemma removeComment_returns (s : Slice.CollaborationState) (d : string) (cid : number) :
  member d (Slice.comments s) <> Inherited -> d <> "__proto__" ->
  exists s',
    Slice.removeComment s d cid = Returns s' /\
    Slice.commentsOf d s' = filter (fun c => Slice.id c ≠ cid) (Slice.commentsOf d s) /\
    (forall d', d' <> d -> Slice.comments s' !! d' = Slice.comments s !! d').
Proof.
  intros H Hd. unfold Slice.removeComment.
  destruct (member d (Slice.comments s)) as [cs| |] eqn:Hm; [|contradiction|].
  - rewrite (bool_decide_eq_false_2 _ Hd).
    eexists. split; [reflexivity|]. split.
    + unfold Slice.commentsOf. simpl.
      now rewrite lookup_insert_eq, (member_own _ _ _ Hm).
    + intros d' Hne. simpl. now rewrite lookup_insert_ne.
  - exists s. split; [reflexivity|]. split; [|reflexivity].
    unfold Slice.commentsOf. now rewrite (proj1 (member_missing _ _ Hm)).
Qed.

(** X2: [removeComment] throws a [TypeError] when the read of the
    document's list yields an inherited member of [Object.prototype], and
    Immer throws when the list read is to be assigned to "__proto__".
    Otherwise it takes out every comment of the document that carries the
    id, not only the first one, and keeps the others in their order;
    afterwards no comment with that id can be found.  The comments of the
    other documents are not touched. *)
Theorem removeComment_removes_every_match
    (s : Slice.CollaborationState) (d : string) (cid : number) :
  match Slice.removeComment s d cid with
  | Throws e =>
      match member d (Slice.comments s) with
      | Inherited => e = TypeError
      | Own _ => e = ImmerError /\ d = "__proto__"
      | Missing => False
      end
  | Returns s' =>
      member d (Slice.comments s) <> Inherited /\
      d <> "__proto__" /\
      Slice.commentsOf d s'
        = filter (fun c => Slice.id c ≠ cid) (Slice.commentsOf d s) /\
      Slice.findComment s' d cid = None /\
      (forall c, c ∈ Slice.commentsOf d s' <->
                 c ∈ Slice.commentsOf d s /\ Slice.id c <> cid) /\
      (forall d', d' <> d -> Slice.comments s' !! d' = Slice.comments s !! d')
  end.
Proof.
  assert (Hret : member d (Slice.comments s) <> Inherited -> d <> "__proto__" ->
            match Slice.removeComment s d cid with
            | Throws e => False
            | Returns s' =>
                member d (Slice.comments s) <> Inherited /\
                d <> "__proto__" /\
                Slice.commentsOf d s'
                  = filter (fun c => Slice.id c ≠ cid) (Slice.commentsOf d s) /\
                Slice.findComment s' d cid = None /\
                (forall c, c ∈ Slice.commentsOf d s' <->
                           c ∈ Slice.commentsOf d s /\ Slice.id c <> cid) /\
                (forall d', d' <> d -> Slice.comments s' !! d' = Slice.comments s !! d')
            end).
  { intros Hn Hd.
    destruct (removeComment_returns s d cid Hn Hd) as (s' & -> & Hc & Hother).
    split; [exact Hn|]. split; [exact Hd|]. split; [exact Hc|].
    split; [|split; [|exact Hother]].
    - unfold Slice.findComment. rewrite Hc. apply find_filter_none.
    - intros c. rewrite Hc, list_elem_of_filter. tauto. }
  destruct (member d (Slice.comments s)) as [cs| |] eqn:Hm.
  - destruct (decide (d = "__proto__")) as [Hd|Hd].
    + unfold Slice.removeComment. rewrite Hm, (bool_decide_eq_true_2 _ Hd). auto.
    + assert (Hn : Own cs <> Inherited) by discriminate.
      specialize (Hret Hn Hd).
      destruct (Slice.removeComment s d cid); [exact Hret|contradiction].
  - unfold Slice.removeComment. now rewrite Hm.
  - destruct (member_missing _ _ Hm) as [_ Hplain].
    assert (Hd : d <> "__proto__") by (intros ->; discriminate Hplain).
    assert (Hn : @Missing (list Slice.Comment) <> Inherited) by discriminate.
    specialize (Hret Hn Hd).
    destruct (Slice.removeComment s d cid); [exact Hret|contradiction].
Qed.

(** X3: for a document id that is not the name of a member of
    [Object.prototype], removing a comment id that the document does not
    contain leaves the whole store exactly as it was. *)
Theorem removeComment_unknown_id_unchanged
    (s : Slice.CollaborationState) (d : string) (cid : number) :
  inheritedName d = false ->
  Slice.findComment s d cid = None ->
  Slice.removeComment s d cid = Returns s.
Proof.
  unfold Slice.findComment, Slice.commentsOf, Slice.removeComment. intros Hplain.
  rewrite (member_plain d _ Hplain).
  destruct (Slice.comments s !! d) as [cs|] eqn:Hm; [|reflexivity].
  rewrite bool_decide_eq_false_2 by (intros ->; discriminate Hplain).
  simpl. intros Hf. rewrite (find_none_filter cid cs Hf).
  unfold Slice.set_comments. rewrite (insert_id _ _ _ Hm). now destruct s.
Qed.

Lemma removeComment_unknown_id_unchanged_witness :
  Slice.removeComment Sample.oneComment "doc1" 2 = Returns Sample.oneComment.
Proof.
  apply removeComment_unknown_id_unchanged.
  - vm_compute. reflexivity.
  - vm_compute. reflexivity.
Defined.

(** X4: for a document id that is not the name of a member of
    [Object.prototype], adding a comment whose id is new to the document
    and then removing that id gives back the comments the document had. *)
Theorem addComment_removeComment_round_trip
    (now : string) (s : Slice.CollaborationState) (d : string) (c : Slice.Comment) :
  inheritedName d = false ->
  Slice.findComment s d (Slice.id c) = None ->
  exists s1 s2,
    Slice.dispatch now s (Slice.AddComment d c) = Returns s1 /\
    Slice.dispatch now s1 (Slice.RemoveComment d (Slice.id c)) = Returns s2 /\
    Slice.commentsOf d s1 = Slice.commentsOf d s ++ [c] /\
    Slice.commentsOf d s2 = Slice.commentsOf d s.
Proof.
  intros Hd Hf. simpl.
  rewrite addComment_appends by now apply plain_not_inherited.
  set (s1 := Slice.set_comments
               (<[d := Slice.commentsOf d s ++ [c]]> (Slice.comments s)) s).
  assert (H1 : Slice.commentsOf d s1 = Slice.commentsOf d s ++ [c]).
  { unfold Slice.commentsOf at 1. unfold s1. simpl. now rewrite lookup_insert_eq. }
  assert (Hn : member d (Slice.comments s1) <> Inherited)
    by now apply plain_not_inherited.
  assert (Hp : d <> "__proto__") by (intros ->; discriminate Hd).
  destruct (removeComment_returns s1 d (Slice.id c) Hn Hp) as (s2 & H2 & Hc & _).
  exists s1, s2. split; [reflexivity|]. split; [exact H2|]. split; [exact H1|].
  rewrite Hc, H1, filter_app. unfold Slice.findComment in Hf.
  rewrite (find_none_filter _ _ Hf).
  rewrite filter_cons_False by (intros H; now apply H). apply app_nil_r.
Qed.

Lemma addComment_removeComment_round_trip_witness :
  exists s1 s2,
    Slice.dispatch "2024-01-01T00:00:02.000Z" Sample.oneComment
      (Slice.AddComment "doc1" (Sample.note 2 "bob" "agreed")) = Returns s1 /\
    Slice.dispatch "2024-01-01T00:00:02.000Z" s1 (Slice.RemoveComment "doc1" 2)
      = Returns s2 /\
    Slice.commentsOf "doc1" s1
      = Slice.commentsOf "doc1" Sample.oneComment ++ [Sample.note 2 "bob" "agreed"] /\
    Slice.commentsOf "doc1" s2 = Slice.commentsOf "doc1" Sample.oneComment.
Proof.
  apply (addComment_removeComment_round_trip "2024-01-01T00:00:02.000Z"
           Sample.oneComment "doc1" (Sample.note 2 "bob" "agreed")).
  - vm_compute. reflexivity.
  - vm_compute. reflexivity.
Defined.

(** X5: [updateComment] throws a [TypeError] when the read of the
    document's list yields an inherited member of [Object.prototype], and
    returns otherwise.  For an id the document does not contain it leaves
    the store unchanged; otherwise it replaces the text of the first
    comment with that id and nothing else: its author, position, time and
    replies, the other comments and their order stay.  A second update of
    the same comment overwrites the first. *)
Theorem updateComment_changes_text_only
    (s : Slice.CollaborationState) (d : string) (cid : number) (text : string) :
  match member d (Slice.comments s) with
  | Inherited => Slice.updateComment s d cid text = Throws TypeError
  | Missing => Slice.updateComment s d cid text = Returns s
  | Own cs =>
      match find (Slice.hasId cid) cs with
      | None => Slice.updateComment s d cid text = Returns s
      | Some c =>
          exists before after s',
            Slice.updateComment s d cid text = Returns s' /\
            cs = before ++ c :: after /\
            Forall (fun b => Slice.id b <> cid) before /\
            Slice.commentsOf d s'
              = before
                ++ Slice.mkComment cid (Slice.userId c) text (Slice.position c)
                     (Slice.createdAt c) (Slice.replies c)
                :: after /\
            (forall text',
               Slice.updateComment s' d cid text' = Slice.updateComment s d cid text') /\
            (forall d', d' <> d -> Slice.comments s' !! d' = Slice.comments s !! d')
      end
  end.
Proof.
  destruct (member d (Slice.comments s)) as [cs| |] eqn:Hm.
  2, 3: unfold Slice.updateComment; now rewrite Hm.
  destruct (find (Slice.hasId cid) cs) as [c|] eqn:Hfind.
  2: unfold Slice.updateComment; now rewrite Hm, Hfind.
  destruct (find_split (Slice.hasId cid) (Slice.set_content text) cs c Hfind)
    as (l1 & l2 & Hcs & Hc & Hl1 & _).
  assert (Hid : Slice.id c = cid) by now apply Z.eqb_eq.
  assert (Hupd : forall t,
            Slice.updateComment s d cid t
            = Returns (Slice.set_comments
                         (<[d := l1 ++ Slice.set_content t c :: l2]> (Slice.comments s))
                         s)).
  { intros t. unfold Slice.updateComment. rewrite Hm, Hfind.
    destruct (find_first_match (Slice.hasId cid) (Slice.set_content t) l1 l2 c Hl1 Hc)
      as [_ Hmut]. now rewrite Hcs, Hmut. }
  exists l1, l2. eexists. split; [apply Hupd|].
  split; [exact Hcs|]. split; [now apply find_hasId_before|]. split; [|split].
  - unfold Slice.commentsOf. simpl. rewrite lookup_insert_eq. simpl.
    unfold Slice.set_content. now rewrite Hid.
  - intros text'. rewrite Hupd. unfold Slice.updateComment, Slice.set_comments.
    cbn [Slice.comments].
    rewrite (member_lookup d _ _ (lookup_insert_eq _ _ _)).
    destruct (find_first_match (Slice.hasId cid) (Slice.set_content text') l1 l2
                (Slice.set_content text c) Hl1 Hc) as [Hf' Hm'].
    rewrite Hf', Hm'. cbn. now rewrite insert_insert_eq.
  - intros d' Hne. simpl. now rewrite lookup_insert_ne.
Qed.

(** ** Cursors come and go *)

(** X6: removing the cursor of a user undoes an update for that user.  For
    a user that had no cursor, dispatching the update and then the removal
    leaves the store exactly as it was; for every user id other than
    "__proto__" the update returns and the removal then gives what a removal
    without the update gives.  Removing the cursor of a user that has none
    changes nothing. *)
Theorem cursor_update_remove_round_trip
    (now : string) (s : Slice.CollaborationState) (u : string) (pos : Position) :
  Slice.cursors s !! u = None ->
  Slice.run now [Slice.UpdateCursor u pos; Slice.RemoveCursor u] s = s /\
  Slice.removeCursor s u = s /\
  (u <> "__proto__" ->
   forall s0, exists s1,
     Slice.dispatch now s0 (Slice.UpdateCursor u pos) = Returns s1 /\
     Slice.cursors s1 !! u = Some (Slice.mkCursor u pos now) /\
     Slice.removeCursor s1 u = Slice.removeCursor s0 u).
Proof.
  intros Hnone.
  assert (Hid : Slice.removeCursor s u = s).
  { unfold Slice.removeCursor, Slice.set_cursors.
    rewrite (delete_id _ _ Hnone). now destruct s. }
  assert (Hgen : u <> "__proto__" ->
            forall s0, exists s1,
              Slice.dispatch now s0 (Slice.UpdateCursor u pos) = Returns s1 /\
              Slice.cursors s1 !! u = Some (Slice.mkCursor u pos now) /\
              Slice.removeCursor s1 u = Slice.removeCursor s0 u).
  { intros Hu s0. simpl. unfold Slice.updateCursor.
    rewrite (bool_decide_eq_false_2 _ Hu). eexists. split; [reflexivity|].
    split; [apply lookup_insert_eq|].
    unfold Slice.removeCursor, Slice.set_cursors. simpl.
    now rewrite delete_insert_eq. }
  split; [|split; [exact Hid|exact Hgen]].
  unfold Slice.run. simpl. unfold Slice.reducer at 2.
  destruct (decide (u = "__proto__")) as [->|Hu].
  - simpl. exact Hid.
  - destruct (Hgen Hu s) as (s1 & -> & _ & Hrem).
    unfold Slice.reducer. simpl. now rewrite Hrem.
Qed.

Lemma cursor_update_remove_round_trip_witness :
  Slice.run "2024-01-01T00:00:00.000Z"
    [Slice.UpdateCursor "alice" Sample.origin; Slice.RemoveCursor "alice"]
    Slice.initialState
  = Slice.initialState.
Proof.
  exact (proj1 (cursor_update_remove_round_trip "2024-01-01T00:00:00.000Z"
                  Slice.initialState "alice" Sample.origin (lookup_empty _))).
Defined.

Lemma reducer_cursorsKeyed (now : string) (s : Slice.CollaborationState) (a : Slice.Action) :
  cursorsKeyed s -> cursorsKeyed (Slice.reducer now s a).
Proof.
  unfold cursorsKeyed, Slice.reducer. intros H.
  destruct a; simpl; try exact H.
  - unfold Slice.setActiveDocument. case_bool_decide; [exact H|].
    intros u c Hl. simpl in Hl. rewrite lookup_empty in Hl. discriminate.
  - unfold Slice.updateCursor. case_bool_decide; [exact H|].
    intros u c Hl. simpl in Hl. destruct (decide (userId = u)) as [->|Hne].
    + rewrite lookup_insert_eq in Hl. now injection Hl as <-.
    + rewrite lookup_insert_ne in Hl by exact Hne. now apply H.
  - intros u c Hl. apply lookup_delete_Some in Hl as [_ Hl]. now apply H.
  - unfold Slice.addComment. now destruct (member documentId (Slice.comments s)).
  - unfold Slice.updateComment.
    destruct (member documentId (Slice.comments s)); try exact H.
    now destruct (find _ _).
  - unfold Slice.removeComment.
    destruct (member documentId (Slice.comments s)); try exact H.
    now case_bool_decide.
  - unfold Slice.addReply.
    destruct (member documentId (Slice.comments s)); try exact H.
    now destruct (find _ _).
  - intros u c Hl. rewrite lookup_empty in Hl. discriminate.
Qed.

(** X7: every cursor in the store is filed under the id of the user it
    records.  No action breaks this, so it holds after every sequence of
    actions on a store where it holds, the initial store among them. *)
Theorem cursors_filed_under_their_user
    (now : string) (actions : list Slice.Action) (s : Slice.CollaborationState) :
  cursorsKeyed s -> cursorsKeyed (Slice.run now actions s).
Proof.
  unfold Slice.run. revert s.
  induction actions as [|a actions IH]; intros s H; simpl; [exact H|].
  apply IH, reducer_cursorsKeyed, H.
Qed.

Lemma cursors_filed_under_their_user_witness :
  cursorsKeyed
    (Slice.run "2024-01-01T00:00:00.000Z"
       [Slice.UpdateCursor "alice" Sample.origin; Slice.RemoveCursor "bob"]
       Slice.initialState).
Proof.
  apply cursors_filed_under_their_user.
  intros u c Hl. simpl in Hl. rewrite lookup_empty in Hl. discriminate.
Defined.

(** ** Replies are one level deep *)

Lemma find_mutateFirst_is_Some {A : Type} (p q : A -> bool) (f : A -> A) (l : list A) :
  (forall a, q (f a) = q a) ->
  is_Some (find q (mutateFirst p f l)) <-> is_Some (find q l).
Proof.
  intros Hq. induction l as [|a l IH]; simpl; [reflexivity|].
  destruct (p a); simpl.
  - rewrite Hq. destruct (q a); [|reflexivity]. split; eauto.
  - destruct (q a); [reflexivity|exact IH].
Qed.

(** Where it returns, [addReply] does not change which ids can be found
    among the comments of a document. *)
Lemma addReply_findable (s s' : Slice.CollaborationState) (d d' : string) (cid i : number)
    (r : Slice.Comment) :
  Slice.addReply s d cid r = Returns s' ->
  (is_Some (Slice.findComment s' d' i) <-> is_Some (Slice.findComment s d' i)) /\
  (member d (Slice.comments s) <> Inherited -> member d (Slice.comments s') <> Inherited).
Proof.
  unfold Slice.addReply.
  destruct (member d (Slice.comments s)) as [cs| |] eqn:Hm; try discriminate.
  - destruct (find (Slice.hasId cid) cs); intros [= <-].
    + split.
      * unfold Slice.findComment, Slice.commentsOf. simpl.
        destruct (decide (d = d')) as [<-|Hne].
        -- rewrite lookup_insert_eq, (member_own _ _ _ Hm). simpl.
           now apply find_mutateFirst_is_Some.
        -- now rewrite lookup_insert_ne.
      * intros _. simpl.
        now rewrite (member_lookup d _ _ (lookup_insert_eq _ _ _)).
    + split; [reflexivity|]. now rewrite Hm.
  - intros [= <-]. split; [reflexivity|]. now rewrite Hm.
Qed.

Lemma addReply_ignores
    (s : Slice.CollaborationState) (d : string) (cid : number) (r : Slice.Comment) :
  member d (Slice.comments s) <> Inherited ->
  Slice.findComment s d cid = None -> Slice.addReply s d cid r = Returns s.
Proof.
  unfold Slice.findComment, Slice.commentsOf, Slice.addReply. intros Hn.
  destruct (member d (Slice.comments s)) as [cs| |] eqn:Hm;
    [|contradiction|reflexivity].
  rewrite (member_own _ _ _ Hm). simpl. now intros ->.
Qed.

Lemma addReply_returns
    (s : Slice.CollaborationState) (d : string) (cid : number) (r : Slice.Comment) :
  member d (Slice.comments s) <> Inherited ->
  exists s', Slice.addReply s d cid r = Returns s'.
Proof.
  unfold Slice.addReply. intros Hn.
  destruct (member d (Slice.comments s)) as [cs| |]; [|contradiction|eauto].
  destruct (find _ cs); eauto.
Qed.

(** X8: replies are one level deep.  [addReply] looks for its target among
    the comments of the document only, and adding a reply does not change
    which ids can be found there; so, where the read of the document's list
    does not yield an inherited member, a reply whose id is not also the id
    of a comment of the document cannot itself be replied to: the second
    reply is dropped and the store stays as it was. *)
Theorem reply_cannot_be_replied_to
    (now : string) (s : Slice.CollaborationState) (d : string) (cid : number)
    (r r' : Slice.Comment) :
  member d (Slice.comments s) <> Inherited ->
  Slice.findComment s d (Slice.id r) = None ->
  exists s1,
    Slice.dispatch now s (Slice.AddReply d cid r) = Returns s1 /\
    Slice.dispatch now s1 (Slice.AddReply d (Slice.id r) r') = Returns s1 /\
    (forall d' i, is_Some (Slice.findComment s1 d' i)
                  <-> is_Some (Slice.findComment s d' i)).
Proof.
  intros Hn Hnone. simpl.
  destruct (addReply_returns s d cid r Hn) as [s1 H1].
  exists s1. split; [exact H1|]. split.
  - apply addReply_ignores.
    + exact (proj2 (addReply_findable s s1 d d cid 0 r H1) Hn).
    + destruct (Slice.findComment s1 d (Slice.id r)) eqn:Hf; [|reflexivity].
      assert (Hs : is_Some (Slice.findComment s d (Slice.id r))).
      { apply (addReply_findable s s1 d d cid (Slice.id r) r H1). rewrite Hf. eauto. }
      rewrite Hnone in Hs. now destruct Hs.
  - intros d' i. apply (addReply_findable s s1 d d' cid i r H1).
Qed.

Lemma reply_cannot_be_replied_to_witness :
  exists s1,
    Slice.dispatch "2024-01-01T00:00:03.000Z" Sample.oneComment
      (Slice.AddReply "doc1" 1 (Sample.note 2 "bob" "agreed")) = Returns s1 /\
    Slice.dispatch "2024-01-01T00:00:03.000Z" s1
      (Slice.AddReply "doc1" 2 (Sample.note 3 "alice" "thanks")) = Returns s1 /\
    (forall d' i, is_Some (Slice.findComment s1 d' i)
                  <-> is_Some (Slice.findComment Sample.oneComment d' i)).
Proof.
  apply (reply_cannot_be_replied_to "2024-01-01T00:00:03.000Z" Sample.oneComment
           "doc1" 1 (Sample.note 2 "bob" "agreed") (Sample.note 3 "alice" "thanks")).
  - vm_compute. discriminate.
  - vm_compute. reflexivity.
Defined.

(** * Further properties of the collaborative editor *)

Lemma receive_comments (msgs : list Editor.ServerMessage) (st : Editor.EditorState) :
  Editor.comments (Editor.receive msgs st) = Editor.comments st ++ Render.newComments msgs.
Proof.
  unfold Editor.receive. revert st.
  induction msgs as [|m msgs IH]; intros st; simpl; [now rewrite app_nil_r|].
  rewrite IH. destruct m; simpl; try reflexivity. now rewrite <- app_assoc.
Qed.

Lemma changes_repeated (v : option string) (values : list (option string)) :
  forall previous,
    Frames.changes previous (values ++ [v; v]) = Frames.changes previous (values ++ [v]).
Proof.
  induction values as [|a values IH]; intros previous; simpl.
  - rewrite (bool_decide_eq_true_2 (v = v)) by reflexivity.
    now case_bool_decide.
  - case_bool_decide; now rewrite IH.
Qed.

Lemma effectRuns_repeated (v : option string) (values : list (option string)) :
  Frames.effectRuns (values ++ [v; v]) = Frames.effectRuns (values ++ [v]).
Proof.
  destruct values as [|a values]; simpl.
  - now rewrite (bool_decide_eq_true_2 (v = v)).
  - now rewrite changes_repeated.
Qed.

Lemma changes_null (values : list (option string)) :
  forall previous,
    Frames.reachParse (Frames.changes previous (values ++ [None]))
    = Frames.reachParse (Frames.changes previous values).
Proof.
  unfold Frames.reachParse.
  induction values as [|a values IH]; intros previous; simpl.
  - now case_bool_decide.
  - case_bool_decide; simpl; now rewrite IH.
Qed.

Lemma effectRuns_null (values : list (option string)) :
  Frames.reachParse (Frames.effectRuns (values ++ [None]))
  = Frames.reachParse (Frames.effectRuns values).
Proof.
  destruct values as [|a values]; [reflexivity|].
  simpl. unfold Frames.reachParse. simpl.
  pose proof (changes_null values a) as H. unfold Frames.reachParse in H.
  now rewrite H.
Qed.

(** X9: the editor keeps the comments in arrival order.  The message
    effect runs when [lastMessage] changes, so a text equal to the one
    rendered before it is not handled a second time, and it returns at
    once on [null].  When every text that reaches [JSON.parse] is a
    message, the comment list afterwards is the one the editor started with
    followed by the comments of the [new_comment] messages handled, in
    their order; no other message adds, drops or moves a comment, and what
    is rendered for a page is, in the same order, the part of that list that
    lies on the page.  When a text fails to parse, the effect throws. *)
Theorem editor_comments_in_arrival_order
    (parse : string -> Completion Editor.ServerMessage)
    (values : list (option string)) (st : Editor.EditorState) (pageNumber : number) :
  match Frames.parseAll parse (Frames.reachParse (Frames.effectRuns values)) with
  | Throws e => Frames.deliver parse values st = Throws e
  | Returns msgs =>
      exists st',
        Frames.deliver parse values st = Returns st' /\
        Editor.comments st' = Editor.comments st ++ Render.newComments msgs /\
        Render.pageComments pageNumber (Editor.comments st')
          = Render.pageComments pageNumber (Editor.comments st)
            ++ Render.pageComments pageNumber (Render.newComments msgs) /\
        (forall c, c ∈ Render.pageComments pageNumber (Editor.comments st')
                   -> page (Editor.position c) = pageNumber)
  end /\
  (forall v, Frames.deliver parse (values ++ [v; v]) st
             = Frames.deliver parse (values ++ [v]) st) /\
  Frames.deliver parse (values ++ [None]) st = Frames.deliver parse values st.
Proof.
  split; [|split].
  - unfold Frames.deliver.
    destruct (Frames.parseAll parse _) as [msgs|e]; [|reflexivity].
    eexists. split; [reflexivity|]. split; [apply receive_comments|]. split.
    + rewrite receive_comments. apply filter_app.
    + intros c Hc. now apply list_elem_of_filter in Hc as [Hp _].
  - intros v. unfold Frames.deliver. now rewrite effectRuns_repeated.
  - unfold Frames.deliver. now rewrite effectRuns_null.
Qed.

(** The effect skips the first [null], handles "a" once although it is
    rendered twice, and handles it again when it comes back after "b". *)
Example repeated_text_is_handled_once :
  Frames.reachParse
    (Frames.effectRuns [None; Some "a"; Some "a"; Some "b"; Some "a"])
  = ["a"; "b"; "a"].
Proof. reflexivity. Qed.

Lemma receive_no_lock_event (msgs : list Editor.ServerMessage) (st : Editor.EditorState) :
  Forall (fun m => lockEvent m = false) msgs ->
  Editor.isLocked (Editor.receive msgs st) = Editor.isLocked st /\
  Editor.lockOwner (Editor.receive msgs st) = Editor.lockOwner st.
Proof.
  unfold Editor.receive. intros H. revert st.
  induction H as [|m msgs Hm _ IH]; intros st; simpl; [auto|].
  destruct (IH (Editor.handleMessage st m)) as [-> ->].
  destruct m; simpl in *; try discriminate; auto.
Qed.

(** X10: the lock an editor shows is the last lock announcement it received.
    If the last [document_locked] or [document_unlocked] message of a
    sequence is [document_locked] for [u], the editor shows the lock as held
    by [u], whatever it showed before and whatever came before; if it is
    [document_unlocked], it shows the lock as free; a sequence without lock
    announcements leaves the lock as it was. *)
Theorem editor_lock_is_last_announcement
    (before rest : list Editor.ServerMessage) (st : Editor.EditorState) :
  Forall (fun m => lockEvent m = false) rest ->
  (forall u,
     let st' := Editor.receive (before ++ Editor.document_locked u :: rest) st in
     Editor.isLocked st' = true /\ Editor.lockOwner st' = Some u /\
     forall p, Editor.heldBySelf p st' = true <-> p = u) /\
  (let st' := Editor.receive (before ++ Editor.document_unlocked :: rest) st in
   Editor.isLocked st' = false /\ Editor.lockOwner st' = None) /\
  Editor.isLocked (Editor.receive rest st) = Editor.isLocked st /\
  Editor.lockOwner (Editor.receive rest st) = Editor.lockOwner st.
Proof.
  intros Hrest. split; [|split; [|now apply receive_no_lock_event]].
  - intros u st'. subst st'. rewrite receive_app.
    change (Editor.receive (Editor.document_locked u :: rest) ?s)
      with (Editor.receive rest (Editor.handleMessage s (Editor.document_locked u))).
    set (s1 := Editor.handleMessage (Editor.receive before st) (Editor.document_locked u)).
    destruct (receive_no_lock_event rest s1 Hrest) as [Hl Ho].
    assert (Hl' : Editor.isLocked (Editor.receive rest s1) = true) by now rewrite Hl.
    assert (Ho' : Editor.lockOwner (Editor.receive rest s1) = Some u) by now rewrite Ho.
    split; [exact Hl'|]. split; [exact Ho'|].
    intros p. rewrite heldBySelf_spec, Hl', Ho'. split.
    + intros [_ [= ->]]. reflexivity.
    + intros ->. auto.
  - intros st'. subst st'. rewrite receive_app.
    change (Editor.receive (Editor.document_unlocked :: rest) ?s)
      with (Editor.receive rest (Editor.handleMessage s Editor.document_unlocked)).
    set (s1 := Editor.handleMessage (Editor.receive before st) Editor.document_unlocked).
    destruct (receive_no_lock_event rest s1 Hrest) as [Hl Ho].
    split; [now rewrite Hl|now rewrite Ho].
Qed.

Lemma editor_lock_is_last_announcement_witness :
  Editor.lockOwner
    (Editor.receive
       ([Editor.document_locked "alice"; Editor.document_unlocked]
        ++ Editor.document_locked "bob" :: [Editor.cursor_update "alice" Sample.origin])
       (Editor.initialEditor None))
  = Some "bob".
Proof.
  refine (proj1 (proj2 (proj1 (editor_lock_is_last_announcement
            [Editor.document_locked "alice"; Editor.document_unlocked]
            [Editor.cursor_update "alice" Sample.origin]
            (Editor.initialEditor None) _) "bob"))).
  repeat constructor.
Defined.

Lemma receive_cursor_untouched (u : string) (msgs : list Editor.ServerMessage)
    (st : Editor.EditorState) :
  Forall (fun m => Render.movesCursorOf u m = false) msgs ->
  Editor.cursors (Editor.receive msgs st) !! u = Editor.cursors st !! u.
Proof.
  unfold Editor.receive. intros H. revert st.
  induction H as [|m msgs Hm _ IH]; intros st; simpl; [reflexivity|].
  rewrite IH. destruct m; simpl in *; try reflexivity.
  apply bool_decide_eq_false in Hm. now rewrite lookup_insert_ne.
Qed.

Lemma receive_cursor_stays (u : string) (msgs : list Editor.ServerMessage)
    (st : Editor.EditorState) :
  is_Some (Editor.cursors st !! u) -> is_Some (Editor.cursors (Editor.receive msgs st) !! u).
Proof.
  unfold Editor.receive. revert st.
  induction msgs as [|m msgs IH]; intros st H; simpl; [exact H|].
  apply IH. destruct m; simpl; try exact H.
  apply lookup_insert_is_Some'. now right.
Qed.

(** X11: the cursor an editor shows for a user is the position of the last
    [cursor_update] it received for that user, whatever came before and
    whatever it received for other users afterwards.  The editor never
    removes a cursor: a user that had one still has one after any sequence
    of messages, a departure included. *)
Theorem editor_cursor_is_last_update
    (u : string) (pos : Position) (before rest : list Editor.ServerMessage)
    (st : Editor.EditorState) :
  Forall (fun m => Render.movesCursorOf u m = false) rest ->
  Editor.cursors (Editor.receive (before ++ Editor.cursor_update u pos :: rest) st) !! u
    = Some pos /\
  Editor.cursors (Editor.receive rest st) !! u = Editor.cursors st !! u /\
  (forall msgs u', is_Some (Editor.cursors st !! u') ->
                   is_Some (Editor.cursors (Editor.receive msgs st) !! u')).
Proof.
  intros Hrest. split; [|split].
  - rewrite receive_app.
    change (Editor.receive (Editor.cursor_update u pos :: rest) ?s)
      with (Editor.receive rest (Editor.handleMessage s (Editor.cursor_update u pos))).
    rewrite receive_cursor_untouched by exact Hrest. simpl. apply lookup_insert_eq.
  - now apply receive_cursor_untouched.
  - intros msgs u'. apply receive_cursor_stays.
Qed.

Lemma editor_cursor_is_last_update_witness :
  Editor.cursors
    (Editor.receive
       ([Editor.cursor_update "alice" (mkPosition 5 5 2)]
        ++ Editor.cursor_update "alice" Sample.origin
           :: [Editor.cursor_update "bob" (mkPosition 1 1 1); Editor.other_type "user_left"])
       (Editor.initialEditor None)) !! "alice"
  = Some Sample.origin.
Proof.
  refine (proj1 (editor_cursor_is_last_update "alice" Sample.origin
            [Editor.cursor_update "alice" (mkPosition 5 5 2)]
            [Editor.cursor_update "bob" (mkPosition 1 1 1); Editor.other_type "user_left"]
            (Editor.initialEditor None) _)).
  repeat constructor.
Defined.

(** ** Pages *)

Section ViewportFacts.
Context {Scale : Type} (zoomIn zoomOut : Scale -> Scale)
        (toLowerCase : string -> string).

Local Abbreviation step := (Viewport.step zoomIn zoomOut toLowerCase).
Local Abbreviation onTranscript := (Viewport.onTranscript zoomIn zoomOut toLowerCase).

Lemma nextPage_inRange (v : Viewport.View Scale) :
  Viewport.pageInRange v -> Viewport.pageInRange (Viewport.nextPage v).
Proof.
  intros (n & Hn & Hp). exists n. unfold Viewport.nextPage. simpl.
  rewrite Hn. simpl. split; [reflexivity|lia].
Qed.

Lemma previousPage_inRange (v : Viewport.View Scale) :
  Viewport.pageInRange v -> Viewport.pageInRange (Viewport.previousPage v).
Proof.
  intros (n & Hn & Hp). exists n. unfold Viewport.previousPage. simpl.
  split; [exact Hn|lia].
Qed.

Lemma step_inRange (v : Viewport.View Scale) (i : Viewport.Input) :
  Viewport.navigates i = true -> Viewport.pageInRange v -> Viewport.pageInRange (step v i).
Proof.
  intros Hi Hv. destruct i as [n| | |t]; simpl in *; try discriminate.
  - unfold Viewport.clickPrevious.
    destruct (Viewport.previousDisabled v); [exact Hv|now apply previousPage_inRange].
  - unfold Viewport.clickNext.
    destruct (Viewport.nextDisabled v); [exact Hv|now apply nextPage_inRange].
  - unfold Viewport.onTranscript.
    destruct (negb (truthy (Some t))); [exact Hv|].
    destruct (Viewport.includes _ "next page"); [now apply nextPage_inRange|].
    destruct (Viewport.includes _ "previous page"); [now apply previousPage_inRange|].
    destruct (Viewport.includes _ "zoom in"); [exact Hv|].
    destruct (Viewport.includes _ "zoom out"); [exact Hv|].
    destruct (Viewport.includes _ "ar mode"); exact Hv.
Qed.

(** X12: once a document with at least one page has loaded and the editor
    shows one of its pages, no click on Previous or Next and no voice
    command takes it out of the document: the page number stays between 1
    and the page count.  At the first page Previous does nothing and at the
    last page Next does nothing. *)
Theorem page_stays_in_document (inputs : list Viewport.Input) (v : Viewport.View Scale) :
  Viewport.pageInRange v ->
  Forall (fun i => Viewport.navigates i = true) inputs ->
  Viewport.pageInRange (fold_left step inputs v) /\
  (Viewport.pageNumber v = 1 -> Viewport.clickPrevious v = v) /\
  (Viewport.numPages v = Some (Viewport.pageNumber v) -> Viewport.clickNext v = v).
Proof.
  intros Hv Hin. split; [|split].
  - revert v Hv. induction Hin as [|i inputs Hi _ IH]; intros v Hv; simpl; [exact Hv|].
    apply IH. now apply step_inRange.
  - intros H1. unfold Viewport.clickPrevious, Viewport.previousDisabled.
    rewrite H1. reflexivity.
  - intros Hlast. unfold Viewport.clickNext, Viewport.nextDisabled.
    rewrite Hlast. simpl. now rewrite Z.leb_refl.
Qed.

(** X13: before the document has loaded the page count is [null], which
    counts as 0.  The Next button is then disabled, but the voice command is
    not guarded: a transcript containing "next page" sets the page number to
    0, which is no page of any document. *)
Theorem voice_next_page_before_load (transcript : string) (v : Viewport.View Scale) :
  transcript <> "" ->
  Viewport.includes (toLowerCase transcript) "next page" = true ->
  Viewport.numPages v = None ->
  0 <= Viewport.pageNumber v ->
  Viewport.pageNumber (onTranscript transcript v) = 0 /\
  Viewport.clickNext v = v /\
  ~ Viewport.pageInRange (onTranscript transcript v).
Proof.
  intros Hne Hinc Hnone Hpos.
  assert (Hstep : onTranscript transcript v = Viewport.nextPage v).
  { unfold Viewport.onTranscript. simpl.
    destruct (String.eqb_spec transcript ""); [contradiction|]. simpl.
    now rewrite Hinc. }
  rewrite Hstep. split; [|split].
  - unfold Viewport.nextPage. simpl. rewrite Hnone. simpl. lia.
  - unfold Viewport.clickNext, Viewport.nextDisabled. rewrite Hnone. simpl.
    destruct (Z.leb_spec 0 (Viewport.pageNumber v)); [reflexivity|lia].
  - intros (n & Hn & _). unfold Viewport.nextPage in Hn. simpl in Hn. congruence.
Qed.

End ViewportFacts.

Lemma page_stays_in_document_witness :
  Viewport.pageInRange
    (fold_left (Viewport.step (fun s : Z => s + 20) (fun s : Z => s - 20) (fun t => t))
       [Viewport.ClickNext; Viewport.Said "next page"; Viewport.Said "next page"]
       (Viewport.mkView (Some 2) 1 100 false)).
Proof.
  refine (proj1 (page_stays_in_document (fun s : Z => s + 20) (fun s : Z => s - 20)
                   (fun t => t)
                   [Viewport.ClickNext; Viewport.Said "next page"; Viewport.Said "next page"]
                   (Viewport.mkView (Some 2) 1 100 false) _ _)).
  - exists 2. simpl. split; [reflexivity|lia].
  - repeat constructor.
Defined.

Lemma voice_next_page_before_load_witness :
  Viewport.pageNumber
    (Viewport.onTranscript (fun s : Z => s + 20) (fun s : Z => s - 20) (fun t => t)
       "go to the next page" (Viewport.mkView None 1 100 false))
  = 0.
Proof.
  refine (proj1 (voice_next_page_before_load (fun s : Z => s + 20) (fun s : Z => s - 20)
                   (fun t => t) "go to the next page"
                   (Viewport.mkView None 1 100 false) _ _ _ _)).
  - discriminate.
  - reflexivity.
  - reflexivity.
  - simpl. lia.
Defined.

(** * Further properties of the document viewer *)

Lemma created_cons (d : Types.Document.t) (pg : number) (t : Z) (iso text : string)
    (calls : list (Z * string * string)) :
  Viewer.created d pg ((t, iso, text) :: calls)
  = Types.Comment.mk ("comment-" +:+ pretty t) text Viewer.currentUser iso
      (Some (Types.Comment.mkPos 0 0 (Some pg))) None
    :: Viewer.created d pg calls.
Proof. reflexivity. Qed.

(** X14: the comments written in the viewer can always be rendered and show
    up on the page they were written on.  Rendering the comments of a
    section evaluates [c.position.page] for every comment and fails on a
    comment without a position; the comments made by [handleAddComment] all
    have one, so for them it never fails: the section of the page they were
    written on shows all of them, in writing order, and every other section
    shows none.  The Resolve button is rendered for each of them. *)
Theorem created_comments_show_on_their_page
    (d : Types.Document.t) (pg : number) (calls : list (Z * string * string))
    (index : nat) :
  Sections.sectionComments index (Viewer.created d pg calls)
    = Sections.Shown (if bool_decide (pg = Z.of_nat index + 1)
                      then Viewer.created d pg calls else []) /\
  Forall (fun c => Viewer.showsResolve c = true) (Viewer.created d pg calls) /\
  (forall c others,
     Types.Comment.position c = None ->
     Sections.sectionComments index (Viewer.created d pg calls ++ c :: others)
     = Sections.TypeError).
Proof.
  split; [|split].
  - induction calls as [|[[t iso] text] calls IH]; [now case_bool_decide|].
    rewrite created_cons. simpl. rewrite IH.
    case_bool_decide as Hpg.
    + rewrite bool_decide_eq_true_2 by (f_equal; exact Hpg). reflexivity.
    + rewrite bool_decide_eq_false_2 by (intros [= Heq]; contradiction). reflexivity.
  - induction calls as [|[[t iso] text] calls IH]; [constructor|].
    rewrite created_cons. constructor; [reflexivity|exact IH].
  - intros c others Hc.
    induction calls as [|[[t iso] text] calls IH].
    + simpl. now rewrite Hc.
    + rewrite created_cons, <- app_comm_cons.
      cbn [Sections.sectionComments Types.Comment.position]. now rewrite IH.
Qed.

Lemma handleRotate_range (prev : Z) :
  0 <= prev < 360 ->
  0 <= Sections.handleRotate 90 prev < 360 /\
  Sections.handleRotate 90 prev = (prev + 90) mod 360.
Proof.
  intros H. unfold Sections.handleRotate.
  rewrite Z.rem_mod_nonneg by lia. split; [|reflexivity].
  apply Z.mod_pos_bound. lia.
Qed.

Lemma rotateClicks_mod (n : nat) (prev : Z) :
  0 <= prev < 360 ->
  0 <= Sections.rotateClicks n prev < 360 /\
  Sections.rotateClicks n prev = (prev + 90 * Z.of_nat n) mod 360.
Proof.
  intros H. induction n as [|n [IHr IHe]].
  - simpl. rewrite Z.add_0_r, Z.mod_small by lia. split; [lia|reflexivity].
  - unfold Sections.rotateClicks in *. rewrite Nat.iter_succ.
    destruct (handleRotate_range _ IHr) as [Hr He]. split; [exact Hr|].
    rewrite He, IHe. rewrite Zplus_mod_idemp_l. f_equal. lia.
Qed.

(** X15: the rotation of the viewer is an angle of a full turn.  Starting
    from an angle in [0, 360), any number of clicks on the rotate button
    leaves the angle in [0, 360), advanced by 90 degrees per click modulo
    360; so four clicks bring the page back to where it was, and from the
    initial angle 0 only 0, 90, 180 and 270 occur. *)
Theorem rotation_wraps_around (n : nat) (prev : Z) :
  0 <= prev < 360 ->
  0 <= Sections.rotateClicks n prev < 360 /\
  Sections.rotateClicks n prev = (prev + 90 * Z.of_nat n) mod 360 /\
  Sections.rotateClicks (n + 4) prev = Sections.rotateClicks n prev /\
  Sections.rotateClicks n 0 = 90 * (Z.of_nat n mod 4).
Proof.
  intros H. destruct (rotateClicks_mod n prev H) as [Hr He].
  split; [exact Hr|]. split; [exact He|]. split.
  - destruct (rotateClicks_mod (n + 4) prev H) as [_ He4]. rewrite He4, He.
    replace (prev + 90 * Z.of_nat (n + 4)) with (prev + 90 * Z.of_nat n + 1 * 360) by lia.
    apply Z_mod_plus_full.
  - destruct (rotateClicks_mod n 0 ltac:(lia)) as [_ He0]. rewrite He0, Z.add_0_l.
    change 360 with (90 * 4). now rewrite Zmult_mod_distr_l.
Qed.

Lemma rotation_wraps_around_witness :
  Sections.rotateClicks (1 + 4) 270 = Sections.rotateClicks 1 270.
Proof.
  refine (proj1 (proj2 (proj2 (rotation_wraps_around 1 270 _)))). lia.
Defined.

(** ** Annotating a selection *)

Lemma truthy_nonempty (s : string) : truthy (Some s) = true <-> s <> "".
Proof.
  simpl. destruct (String.eqb_spec s ""); simpl; split; congruence.
Qed.

Lemma after_toolsHaveText (t : Annotate.Tools) (e : Annotate.Event) :
  Annotate.toolsHaveText t -> Annotate.toolsHaveText (Annotate.after t e).
Proof.
  unfold Annotate.toolsHaveText. intros H.
  destruct e as [sel|color|type doc pg sel nowMs nowIso]; simpl.
  - destruct sel as [sel|]; simpl; [|discriminate].
    destruct (Annotate.isCollapsed sel); simpl; [discriminate|].
    destruct (String.eqb_spec (Annotate.trimmed sel) ""); simpl; [exact H|].
    intros _. assumption.
  - exact H.
  - destruct (Annotate.showAnnotationTools t) eqn:Hshow; [|now rewrite Hshow].
    unfold Annotate.handleAnnotation.
    destruct (negb (truthy (Some (Annotate.selectedText t)))); [now rewrite Hshow|].
    destruct doc; [|now rewrite Hshow].
    destruct sel as [sel|]; [|now rewrite Hshow].
    destruct (Annotate.ranges sel) as [|[a b] rs]; [now rewrite Hshow|].
    simpl. discriminate.
Qed.

(** X16: while the annotation tools are shown there is a text to annotate.
    Starting with the tools hidden, after any sequence of mouse-ups, colour
    picks and clicks on the tools, the tools are shown only if the selected
    text is not empty; a collapsed or absent selection hides them. *)
Theorem tools_shown_only_with_text (events : list Annotate.Event) :
  Annotate.toolsHaveText (fold_left Annotate.after events Annotate.initialTools) /\
  (forall t, Annotate.showAnnotationTools (Annotate.handleTextSelection None t) = false) /\
  (forall t sel, Annotate.isCollapsed sel = true ->
     Annotate.showAnnotationTools (Annotate.handleTextSelection (Some sel) t) = false).
Proof.
  split; [|split].
  - assert (H : forall t, Annotate.toolsHaveText t ->
                          Annotate.toolsHaveText (fold_left Annotate.after events t)).
    { induction events as [|e events IH]; intros t Ht; simpl; [exact Ht|].
      apply IH, after_toolsHaveText, Ht. }
    apply H. intros Hshow. discriminate.
  - reflexivity.
  - intros t sel Hc. simpl. now rewrite Hc.
Qed.

(** X17: an annotation is never made of nothing.  Whenever [handleAnnotation]
    hands an annotation over, its content is the selected text, which is not
    empty, a document is open, its colour is the picked colour, it lies on
    the current page between the offsets of the first range of the
    selection, its id is "annotation-" followed by the clock reading, and
    the tools are hidden afterwards; it is rendered in the section of that
    page and in no other. *)
Theorem annotation_has_selected_text
    (type : Types.AnnotationType) (document : option Types.Document.t)
    (currentPage : number) (selection : option Annotate.Selection)
    (nowMs : Z) (nowIso : string) (t t' : Annotate.Tools) (a : Types.Annotation.t) :
  Annotate.handleAnnotation type document currentPage selection nowMs nowIso t
    = Annotate.Returned t' (Some a) ->
  Types.Annotation.content a = Some (Annotate.selectedText t) /\
  Annotate.selectedText t <> "" /\
  is_Some document /\
  Types.Annotation.type a = type /\
  Types.Annotation.color a = Some (Annotate.annotationColor t) /\
  Types.Annotation.id a = "annotation-" +:+ pretty nowMs /\
  (exists sel rest, selection = Some sel /\
     Annotate.ranges sel
     = (Types.Annotation.start (Types.Annotation.position a),
        Types.Annotation.end_ (Types.Annotation.position a)) :: rest) /\
  Annotate.showAnnotationTools t' = false /\
  Annotate.selectedText t' = Annotate.selectedText t /\
  (forall index, Annotate.sectionAnnotations index [a]
                 = if bool_decide (currentPage = Z.of_nat index + 1) then [a] else []).
Proof.
  unfold Annotate.handleAnnotation.
  destruct (truthy (Some (Annotate.selectedText t))) eqn:Htext; simpl; [|discriminate].
  destruct document as [doc|]; [|discriminate].
  destruct selection as [sel|]; [|discriminate].
  destruct (Annotate.ranges sel) as [|[s e] rest] eqn:Hr; [discriminate|].
  intros [= <- <-]. simpl.
  split; [reflexivity|]. split; [now apply truthy_nonempty|].
  split; [eauto|]. repeat (split; [reflexivity|]).
  split; [exists sel, rest; auto|]. repeat (split; [reflexivity|]).
  intros index. unfold Annotate.sectionAnnotations.
  rewrite filter_cons. simpl. case_bool_decide as Hpg.
  - rewrite decide_True by (f_equal; exact Hpg). reflexivity.
  - rewrite decide_False by (intros [= Heq]; contradiction). reflexivity.
Qed.

Lemma annotation_has_selected_text_witness :
  Types.Annotation.content
    {| Types.Annotation.id := "annotation-" +:+ pretty 1700000000000;
       Types.Annotation.type := Types.highlight;
       Types.Annotation.content := Some "force majeure";
       Types.Annotation.color := Some "#ffeb3b";
       Types.Annotation.user := Viewer.currentUser;
       Types.Annotation.timestamp := "2023-11-14T22:13:20.000Z";
       Types.Annotation.position :=
         {| Types.Annotation.start := 3; Types.Annotation.end_ := 16;
            Types.Annotation.page := Some 2 |} |}
  = Some "force majeure".
Proof.
  exact (proj1 (annotation_has_selected_text Types.highlight (Some Sample.contract) 2
                  (Some (Annotate.mkSelection false "force majeure" [(3, 16)]))
                  1700000000000 "2023-11-14T22:13:20.000Z"
                  (Annotate.mkTools "force majeure" true "#ffeb3b") _ _ eq_refl)).
Defined.

(** * Further properties of the socket service *)

Lemma guarded_falsy_document (svc : Service.CollaborationService) (e : string -> Service.Emit) :
  truthy (Service.documentId svc) = false -> Service.guarded svc e = svc.
Proof.
  unfold Service.guarded. intros H.
  destruct (Service.socket svc); [|reflexivity].
  destruct (Service.documentId svc); [|reflexivity]. now rewrite H.
Qed.

Lemma perform_unconnected (svc : Service.CollaborationService) (c : Calls.Call) :
  Service.socket svc = None \/ truthy (Service.documentId svc) = false ->
  Calls.perform svc c = svc.
Proof.
  intros H.
  assert (Hg : forall e, Service.guarded svc e = svc).
  { intros e. destruct H as [H|H];
      [apply guarded_without_connection; now left|now apply guarded_falsy_document]. }
  destruct c; simpl; try apply Hg.
  - unfold Service.sendMessage. destruct (Service.user svc); [apply Hg|reflexivity].
  - unfold Service.getActiveUsers.
    destruct H as [H|H]; [now rewrite H|].
    destruct (Service.socket svc); [|reflexivity].
    destruct (Service.documentId svc); [|reflexivity]. now rewrite H.
  - unfold Service.getDocumentHistory.
    destruct H as [H|H]; [now rewrite H|].
    destruct (Service.socket svc); [|reflexivity].
    destruct (Service.documentId svc); [|reflexivity]. now rewrite H.
Qed.

Lemma performAll_unconnected (calls : list Calls.Call) (svc : Service.CollaborationService) :
  Service.socket svc = None \/ truthy (Service.documentId svc) = false ->
  Calls.performAll calls svc = svc.
Proof.
  intros H. unfold Calls.performAll.
  induction calls as [|c calls IH]; simpl; [reflexivity|].
  now rewrite perform_unconnected.
Qed.

(** What one call does on a service connected to [d] for user [u]: it emits
    exactly one event, for [d], sent by [u] if it is a chat message, and
    leaves the connection as it is. *)
Lemma perform_connected (d : string) (u : Types.User.t)
    (svc : Service.CollaborationService) (c : Calls.Call) :
  Calls.connectedTo d svc -> Service.user svc = Some u ->
  Calls.connectedTo d (Calls.perform svc c) /\
  Service.user (Calls.perform svc c) = Some u /\
  exists e, Service.outbox (Calls.perform svc c) = Service.outbox svc ++ [e] /\
            Calls.documentOf e = d /\
            (Calls.senderOf e = None \/ Calls.senderOf e = Some u).
Proof.
  intros ([sock Hs] & Hd & Hne) Hu.
  assert (Htruthy : truthy (Some d) = true) by now apply truthy_nonempty.
  assert (Hg : forall f,
             Service.guarded svc f = Service.emit (f d) svc sock).
  { intros f. unfold Service.guarded. now rewrite Hs, Hd, Htruthy. }
  assert (He : forall e,
             Calls.connectedTo d (Service.emit e svc sock) /\
             Service.user (Service.emit e svc sock) = Some u /\
             Service.outbox (Service.emit e svc sock) = Service.outbox svc ++ [e]).
  { intros e. unfold Calls.connectedTo, Service.outbox. simpl. rewrite Hs.
    repeat split; eauto. }
  destruct c; simpl;
    unfold Service.addAnnotation, Service.removeAnnotation, Service.addComment,
           Service.resolveComment, Service.updateCursorPosition, Service.sendMessage,
           Service.getActiveUsers, Service.getDocumentHistory;
    rewrite ?Hu, ?Hg, ?Hs, ?Hd, ?Htruthy; simpl;
    match goal with
    | |- context [Service.emit ?e svc sock] =>
        destruct (He e) as (Hc & Hu' & Ho);
        split; [exact Hc|]; split; [exact Hu'|];
        exists e; split; [exact Ho|]; split; [reflexivity|simpl; auto]
    end.
Qed.

Lemma performAll_connected (d : string) (u : Types.User.t) (calls : list Calls.Call)
    (svc : Service.CollaborationService) :
  Calls.connectedTo d svc -> Service.user svc = Some u ->
  Calls.connectedTo d (Calls.performAll calls svc) /\
  Service.user (Calls.performAll calls svc) = Some u /\
  exists sent, Service.outbox (Calls.performAll calls svc) = Service.outbox svc ++ sent /\
               length sent = length calls /\
               Forall (fun e => Calls.documentOf e = d) sent /\
               Forall (fun e => Calls.senderOf e = None \/ Calls.senderOf e = Some u) sent.
Proof.
  unfold Calls.performAll. revert svc.
  induction calls as [|c calls IH]; intros svc Hc Hu; simpl.
  - split; [exact Hc|]. split; [exact Hu|]. exists []. rewrite app_nil_r.
    repeat split; constructor.
  - destruct (perform_connected d u svc c Hc Hu) as (Hc1 & Hu1 & e & Ho1 & Hd1 & Hs1).
    destruct (IH _ Hc1 Hu1) as (Hc2 & Hu2 & sent & Ho2 & Hlen & Hdoc & Hsend).
    split; [exact Hc2|]. split; [exact Hu2|]. exists (e :: sent).
    rewrite Ho2, Ho1, <- app_assoc. simpl.
    repeat split; [now rewrite Hlen|now constructor|now constructor].
Qed.

(** X18: on a connection no send is lost, doubled or misaddressed.  After
    [connect] with a non-empty document id, any sequence of sends and
    requests emits exactly one event per call, in call order, each carrying
    the document id of the connection, and every chat message names the
    connected user as its sender; the document id and the user of the
    service do not change. *)
Theorem sends_carry_the_connection
    (d : string) (u : Types.User.t) (calls : list Calls.Call)
    (svc0 : Service.CollaborationService) :
  d <> "" ->
  let svc := Calls.performAll calls (Service.connect d u svc0) in
  length (Service.outbox svc) = length calls /\
  Forall (fun e => Calls.documentOf e = d) (Service.outbox svc) /\
  Forall (fun e => Calls.senderOf e = None \/ Calls.senderOf e = Some u)
         (Service.outbox svc) /\
  Service.documentId svc = Some d /\
  Service.user svc = Some u /\
  (forall call, exists e,
     Service.outbox (Calls.perform svc call) = Service.outbox svc ++ [e] /\
     Calls.documentOf e = d).
Proof.
  intros Hne svc.
  assert (Hc : Calls.connectedTo d (Service.connect d u svc0)).
  { unfold Calls.connectedTo. simpl. eauto. }
  destruct (performAll_connected d u calls _ Hc eq_refl)
    as (Hc' & Hu' & sent & Ho & Hlen & Hdoc & Hsend).
  fold svc in Hc', Hu', Ho. simpl in Ho. rewrite Ho.
  repeat split; auto.
  - now destruct Hc' as (_ & Hd & _).
  - intros call. destruct (perform_connected d u svc call Hc' Hu')
      as (_ & _ & e & Hoe & Hde & _).
    exists e. rewrite <- Ho. auto.
Qed.

Lemma sends_carry_the_connection_witness :
  length
    (Service.outbox
       (Calls.performAll
          [Calls.UpdateCursorPosition 3 4; Calls.ResolveComment "comment-1";
           Calls.GetActiveUsers]
          (Service.connect "doc1" Viewer.currentUser Service.initial)))
  = 3%nat.
Proof.
  refine (proj1 (sends_carry_the_connection "doc1" Viewer.currentUser
                   [Calls.UpdateCursorPosition 3 4; Calls.ResolveComment "comment-1";
                    Calls.GetActiveUsers]
                   Service.initial _)).
  discriminate.
Defined.

(** X19: without a usable connection nothing is ever sent.  After
    [disconnect], and also after a [connect] whose document id is the empty
    string, which the guard of every send treats like no document, any
    sequence of sends and requests leaves the service as it was and emits
    nothing; both requests answer at once with the empty result. *)
Theorem nothing_sent_without_connection
    (calls : list Calls.Call) (svc : Service.CollaborationService) (u : Types.User.t) :
  Calls.performAll calls (Service.disconnect svc) = Service.initial /\
  Service.outbox (Calls.performAll calls (Service.disconnect svc)) = [] /\
  Calls.performAll calls (Service.connect "" u svc) = Service.connect "" u svc /\
  Service.outbox (Calls.performAll calls (Service.connect "" u svc)) = [] /\
  (Service.getActiveUsers (Service.connect "" u svc)).2 = Service.Resolved [] /\
  (Service.getDocumentHistory (Service.connect "" u svc)).2
    = Service.Resolved (Service.mkHistory [] [] []).
Proof.
  assert (H1 : Calls.performAll calls (Service.disconnect svc) = Service.initial)
    by (apply performAll_unconnected; now left).
  assert (H2 : Calls.performAll calls (Service.connect "" u svc) = Service.connect "" u svc)
    by (apply performAll_unconnected; now right).
  rewrite H1, H2. repeat split.
Qed.

(** * Properties of the document slice *)

Lemma revokeAccess_returns (s : Documents.DocumentState) (i address : string) :
  member i (Documents.documents s) <> Inherited ->
  exists s',
    Documents.revokeAccess s i address = Returns s' /\
    Documents.sharedWithOf i s'
      = filter (fun a => a ≠ address) (Documents.sharedWithOf i s) /\
    (forall j, j <> i -> Documents.documents s' !! j = Documents.documents s !! j).
Proof.
  intros Hn. unfold Documents.revokeAccess.
  destruct (member i (Documents.documents s)) as [doc| |] eqn:Hm; [|contradiction|].
  - eexists. split; [reflexivity|]. split.
    + unfold Documents.sharedWithOf. simpl.
      now rewrite lookup_insert_eq, (member_own _ _ _ Hm).
    + intros j Hne. simpl. now rewrite lookup_insert_ne.
  - exists s. split; [reflexivity|]. split; [|reflexivity].
    unfold Documents.sharedWithOf. now rewrite (proj1 (member_missing _ _ Hm)).
Qed.

(** X20: [revokeAccess] throws a [TypeError] exactly when the read of the
    document yields an inherited member of [Object.prototype].  Otherwise
    it removes every grant of the address, however often the document was
    shared with it, and leaves the other addresses in their order;
    afterwards the address is not in the list, and other documents are not
    touched.  Sharing a stored document with an address and revoking it
    again leaves exactly the other addresses the document was shared
    with. *)
Theorem revokeAccess_removes_every_grant
    (s : Documents.DocumentState) (i address : string) :
  match Documents.revokeAccess s i address with
  | Throws e => e = TypeError /\ member i (Documents.documents s) = Inherited
  | Returns s' =>
      member i (Documents.documents s) <> Inherited /\
      (address ∉ Documents.sharedWithOf i s') /\
      Documents.sharedWithOf i s'
        = filter (fun a => a ≠ address) (Documents.sharedWithOf i s) /\
      (forall j, j <> i -> Documents.documents s' !! j = Documents.documents s !! j)
  end /\
  (forall doc,
     Documents.documents s !! i = Some doc ->
     exists s1 s2,
       Documents.shareDocument s i address = Returns s1 /\
       Documents.revokeAccess s1 i address = Returns s2 /\
       Documents.sharedWithOf i s2
         = filter (fun a => a ≠ address) (Documents.sharedWith doc)).
Proof.
  split.
  - destruct (member i (Documents.documents s)) as [doc| |] eqn:Hm.
    2: { unfold Documents.revokeAccess. rewrite Hm. auto. }
    all: assert (Hn : member i (Documents.documents s) <> Inherited)
           by (rewrite Hm; discriminate);
      destruct (revokeAccess_returns s i address Hn) as (s' & -> & Hc & Hother);
      split; [discriminate|]; split; [|split; [exact Hc|exact Hother]];
      rewrite Hc; intros H; apply list_elem_of_filter in H as [H _]; now apply H.
  - intros doc Hd. unfold Documents.shareDocument.
    rewrite (member_lookup _ _ _ Hd).
    eexists. eexists. split; [reflexivity|].
    unfold Documents.revokeAccess, Documents.set_documents.
    cbn [Documents.documents].
    rewrite (member_lookup i _ _ (lookup_insert_eq _ _ _)).
    split; [reflexivity|]. unfold Documents.sharedWithOf. simpl.
    rewrite lookup_insert_eq. simpl. rewrite filter_app.
    rewrite filter_cons_False by (intros H; now apply H).
    now rewrite app_nil_r.
Qed.

(** X21: sharing appends the address to the end of the list of a stored
    document without looking whether it is already there, so sharing twice
    lists the address twice; nothing else of the document changes.  For an
    id the store holds no document for, sharing and revoking do nothing,
    unless the id names an inherited member of [Object.prototype]: then
    both throw a [TypeError]. *)
Theorem shareDocument_appends_without_check
    (s : Documents.DocumentState) (i address : string) :
  match member i (Documents.documents s) with
  | Inherited =>
      Documents.shareDocument s i address = Throws TypeError /\
      Documents.revokeAccess s i address = Throws TypeError
  | Missing =>
      Documents.shareDocument s i address = Returns s /\
      Documents.revokeAccess s i address = Returns s
  | Own doc =>
      exists s1 s2,
        Documents.shareDocument s i address = Returns s1 /\
        Documents.documents s1 !! i
          = Some (Documents.set_sharedWith (Documents.sharedWith doc ++ [address]) doc) /\
        Documents.shareDocument s1 i address = Returns s2 /\
        Documents.sharedWithOf i s2 = Documents.sharedWith doc ++ [address; address] /\
        (forall j, j <> i -> Documents.documents s1 !! j = Documents.documents s !! j)
  end.
Proof.
  destruct (member i (Documents.documents s)) as [doc| |] eqn:Hm.
  2, 3: unfold Documents.shareDocument, Documents.revokeAccess; now rewrite Hm.
  unfold Documents.shareDocument at 1. rewrite Hm.
  eexists. eexists. split; [reflexivity|].
  split; [simpl; apply lookup_insert_eq|]. split; [|split].
  - unfold Documents.shareDocument, Documents.set_documents.
    cbn [Documents.documents].
    rewrite (member_lookup i _ _ (lookup_insert_eq _ _ _)). reflexivity.
  - unfold Documents.sharedWithOf. simpl. rewrite lookup_insert_eq. simpl.
    now rewrite <- app_assoc.
  - intros j Hne. simpl. now rewrite lookup_insert_ne.
Qed.




Lemma find_app_first {A : Type} (p : A -> bool) (l1 l2 : list A) :
  find p (l1 ++ l2) = match find p l1 with Some a => Some a | None => find p l2 end.
Proof.
  induction l1 as [|a l1 IH]; simpl; [reflexivity|]. now destruct (p a).
Qed.

Lemma fold_insert_lookup (payload : list Documents.Document)
    (acc : gmap string Documents.Document) (i : string) :
  fold_left (fun acc doc => <[Documents.id doc := doc]> acc) payload acc !! i
  = match find (fun d => bool_decide (Documents.id d = i)) (reverse payload) with
    | Some d => Some d
    | None => acc !! i
    end.
Proof.
  revert acc. induction payload as [|doc payload IH]; intros acc; simpl; [reflexivity|].
  rewrite IH, reverse_cons, find_app_first.
  destruct (find _ (reverse payload)); [reflexivity|]. simpl.
  case_bool_decide as Hid.
  - subst. apply lookup_insert_eq.
  - now rewrite lookup_insert_ne.
Qed.

(** X23: for a list in which no document has the id "__proto__",
    [setDocuments] files each document under its own id and, when the list
    carries an id more than once, keeps the last document with that id.
    The new map holds exactly the ids of the list: every document of the
    list can be looked up by its id, every entry comes from the list, and
    whatever the store held before is gone.  The selection, the filters and
    the sorting are not touched. *)
Theorem setDocuments_keeps_last_of_each_id
    (s : Documents.DocumentState) (payload : list Documents.Document) :
  Forall (fun d => Documents.id d <> "__proto__") payload ->
  exists s',
    Documents.setDocuments s payload = Some s' /\
    (forall i, Documents.documents s' !! i
               = find (fun d => bool_decide (Documents.id d = i)) (reverse payload)) /\
    (forall i d, Documents.documents s' !! i = Some d -> Documents.id d = i /\ d ∈ payload) /\
    (forall d, d ∈ payload -> is_Some (Documents.documents s' !! Documents.id d)) /\
    (forall before d, payload = before ++ [d] ->
                      Documents.documents s' !! Documents.id d = Some d) /\
    Documents.selectedDocument s' = Documents.selectedDocument s /\
    Documents.filters s' = Documents.filters s /\
    Documents.sorting s' = Documents.sorting s.
Proof.
  intros Hplain. unfold Documents.setDocuments, Documents.byId.
  rewrite bool_decide_eq_false_2 by now apply Forall_not_Exists.
  eexists. split; [reflexivity|].
  set (s' := Documents.set_documents _ s).
  assert (Hlook : forall i, Documents.documents s' !! i
            = find (fun d => bool_decide (Documents.id d = i)) (reverse payload)).
  { intros i. unfold s'. simpl.
    rewrite fold_insert_lookup, lookup_empty. now destruct (find _ _). }
  split; [exact Hlook|]. split; [|split; [|split]].
  - intros i d. rewrite Hlook. intros Hf.
    apply find_some in Hf as [Hin Hp]. apply bool_decide_eq_true in Hp.
    split; [exact Hp|]. apply elem_of_reverse. now apply list_elem_of_In.
  - intros d Hd. rewrite Hlook.
    destruct (find _ (reverse payload)) eqn:Hf; [eauto|].
    exfalso. apply elem_of_reverse, list_elem_of_In in Hd.
    pose proof (find_none _ _ Hf d Hd) as Hp. simpl in Hp.
    now rewrite bool_decide_eq_true_2 in Hp.
  - intros before d ->. rewrite Hlook, reverse_app. simpl.
    now rewrite bool_decide_eq_true_2.
  - repeat split.
Qed.

Lemma setDocuments_keeps_last_of_each_id_witness :
  exists s',
    Documents.setDocuments Documents.initialState
      [ Sample.report "doc1";
        Documents.set_sharedWith ["0xabc"] (Sample.report "doc1");
        Sample.report "doc2" ] = Some s' /\
    Documents.documents s' !! "doc1"
      = Some (Documents.set_sharedWith ["0xabc"] (Sample.report "doc1")) /\
    Documents.documents s' !! "doc2" = Some (Sample.report "doc2").
Proof.
  destruct (setDocuments_keeps_last_of_each_id Documents.initialState
              [ Sample.report "doc1";
                Documents.set_sharedWith ["0xabc"] (Sample.report "doc1");
                Sample.report "doc2" ])
    as (s' & Hs & Hlook & _).
  - repeat (constructor; [discriminate|]). constructor.
  - exists s'. split; [exact Hs|]. rewrite !Hlook. split; reflexivity.
Defined.

(** * Properties of the auth slice *)

(** The token of the state is the one in [localStorage]; an authenticated
    state has a token and a user. *)
Lemma reducer_auth_invariant (w : Auth.World) (a : Auth.Action) :
  Auth.token w.1 = Auth.getItem "token" w.2 /\
  (Auth.isAuthenticated w.1 = true -> is_Some (Auth.token w.1) /\ is_Some (Auth.user w.1)) ->
  Auth.token (Auth.reducer w a).1 = Auth.getItem "token" (Auth.reducer w a).2 /\
  (Auth.isAuthenticated (Auth.reducer w a).1 = true ->
   is_Some (Auth.token (Auth.reducer w a).1) /\ is_Some (Auth.user (Auth.reducer w a).1)).
Proof.
  intros [Ht Ha]. destruct a; simpl.
  - unfold Auth.getItem. rewrite lookup_insert_eq. split; eauto.
  - unfold Auth.updateProfile. destruct (Auth.user w.1) as [u|] eqn:Hu; simpl.
    + split; [exact Ht|]. intros H. destruct (Ha H) as [Htok _]. eauto.
    + split; [exact Ht|]. rewrite Hu. exact Ha.
  - split; [exact Ht|exact Ha].
  - split; [exact Ht|exact Ha].
  - unfold Auth.getItem. rewrite lookup_delete_eq. split; [reflexivity|discriminate].
Qed.

Lemma run_auth_invariant (actions : list Auth.Action) (w : Auth.World) :
  Auth.token w.1 = Auth.getItem "token" w.2 /\
  (Auth.isAuthenticated w.1 = true -> is_Some (Auth.token w.1) /\ is_Some (Auth.user w.1)) ->
  let w' := fold_left Auth.reducer actions w in
  Auth.token w'.1 = Auth.getItem "token" w'.2 /\
  (Auth.isAuthenticated w'.1 = true -> is_Some (Auth.token w'.1) /\ is_Some (Auth.user w'.1)).
Proof.
  revert w. induction actions as [|a actions IH]; intros w H; simpl; [exact H|].
  apply IH, reducer_auth_invariant, H.
Qed.

(** X24: the token in the store and the token in [localStorage] never
    disagree.  The store starts with the token found in [localStorage], and
    after any sequence of actions the token of the state is the entry
    "token" of [localStorage], absent in both or the same in both: signing in
    writes both, logging out clears both, and the other actions touch
    neither. *)
Theorem token_mirrors_local_storage
    (actions : list Auth.Action) (storage : gmap string string) :
  Auth.token (Auth.run actions storage).1
    = Auth.getItem "token" (Auth.run actions storage).2 /\
  (forall t u, Auth.getItem "token" (Auth.run (actions ++ [Auth.SetCredentials t u]) storage).2
               = Some t) /\
  Auth.getItem "token" (Auth.run (actions ++ [Auth.Logout]) storage).2 = None /\
  (forall key, key <> "token" ->
     Auth.getItem key (Auth.run actions storage).2 = Auth.getItem key storage).
Proof.
  split; [|split; [|split]].
  - apply (run_auth_invariant actions (Auth.initialState storage, storage)).
    split; [reflexivity|discriminate].
  - intros t u. unfold Auth.run. rewrite fold_left_app. simpl.
    unfold Auth.getItem. apply lookup_insert_eq.
  - unfold Auth.run. rewrite fold_left_app. simpl.
    unfold Auth.getItem. apply lookup_delete_eq.
  - intros key Hkey. unfold Auth.run.
    generalize (Auth.initialState storage). revert storage.
    assert (H : forall (w : Auth.World),
               Auth.getItem key (fold_left Auth.reducer actions w).2 = Auth.getItem key w.2).
    { induction actions as [|a actions IH]; intros w; simpl; [reflexivity|].
      rewrite IH. destruct a; simpl; unfold Auth.getItem; try reflexivity.
      - now rewrite lookup_insert_ne.
      - unfold Auth.updateProfile. now destruct (Auth.user w.1).
      - now rewrite lookup_delete_ne. }
    intros storage st. apply (H (st, storage)).
Qed.

(** X25: the store never counts a user as authenticated without a token
    and a profile.  After any sequence of actions, [isAuthenticated] implies
    that both are present.  A token left in [localStorage] does not
    authenticate by itself: the initial state holds it but is not
    authenticated; and after a logout, whatever came before, neither token
    nor user is left. *)
Theorem authenticated_has_token_and_user
    (actions : list Auth.Action) (storage : gmap string string) :
  (Auth.isAuthenticated (Auth.run actions storage).1 = true ->
   is_Some (Auth.token (Auth.run actions storage).1) /\
   is_Some (Auth.user (Auth.run actions storage).1)) /\
  Auth.isAuthenticated (Auth.initialState storage) = false /\
  Auth.token (Auth.initialState storage) = Auth.getItem "token" storage /\
  (let w := Auth.run (actions ++ [Auth.Logout]) storage in
   Auth.token w.1 = None /\ Auth.user w.1 = None /\ Auth.isAuthenticated w.1 = false).
Proof.
  split; [|split; [reflexivity|split; [reflexivity|]]].
  - destruct (run_auth_invariant actions (Auth.initialState storage, storage)) as [_ Ha].
    { split; [reflexivity|discriminate]. }
    exact Ha.
  - unfold Auth.run. rewrite fold_left_app. simpl. auto.
Qed.

(** Signing in authenticates with token and profile; a token found in
    [localStorage] alone does not. *)
Example sign_in_authenticates :
  let profile := Auth.mkProfile "0xabc" None ["lawyer"] None None in
  let w := Auth.run [Auth.SetCredentials "jwt" profile; Auth.SetLoading true] ∅ in
  Auth.isAuthenticated w.1 = true /\ Auth.token w.1 = Some "jwt" /\
  Auth.user w.1 = Some profile /\
  Auth.isAuthenticated (Auth.run [Auth.SetLoading false] {[ "token" := "jwt" ]}).1 = false.
Proof. vm_compute. repeat split. Qed.

(** * The transcript of the voice hook *)

Lemma append_empty_right (s : string) : s +:+ "" = s.
Proof.
  induction s as [|a s IH]; [reflexivity|].
  change (String a (s +:+ "") = String a s). now rewrite IH.
Qed.

Lemma append_associative (s1 s2 s3 : string) : (s1 +:+ s2) +:+ s3 = s1 +:+ (s2 +:+ s3).
Proof.
  induction s1 as [|a s1 IH]; [reflexivity|].
  change (String a ((s1 +:+ s2) +:+ s3) = String a (s1 +:+ (s2 +:+ s3))). now rewrite IH.
Qed.

Lemma joined_cons (flag fin : bool) (t : string) (results : list (string * bool)) :
  Voice.joined flag ((t, fin) :: results)
  = if bool_decide (fin = flag) then t +:+ Voice.joined flag results
    else Voice.joined flag results.
Proof.
  unfold Voice.joined. rewrite filter_cons. simpl.
  destruct (decide (fin = flag)) as [H|H].
  - now rewrite bool_decide_eq_true_2.
  - now rewrite bool_decide_eq_false_2.
Qed.

Lemma collect_joined (results : list (string * bool)) (f i : string) :
  Voice.collect results f i
  = (f +:+ Voice.joined true results, i +:+ Voice.joined false results).
Proof.
  revert f i. induction results as [|[t fin] results IH]; intros f i.
  - unfold Voice.joined. simpl. now rewrite !append_empty_right.
  - simpl. rewrite !joined_cons. destruct fin; rewrite IH.
    + rewrite bool_decide_eq_true_2 by reflexivity.
      rewrite bool_decide_eq_false_2 by discriminate. now rewrite append_associative.
    + rewrite bool_decide_eq_false_2 by discriminate.
      rewrite bool_decide_eq_true_2 by reflexivity. now rewrite append_associative.
Qed.

(** X26: final results take precedence over interim ones.  The transcript
    set by [onresult] is made of the results from [resultIndex] on, earlier
    ones never contribute: if the final results among them carry any text,
    it is their texts joined in order and the interim results are left out;
    otherwise it is the joined texts of the interim results.  With no result
    from [resultIndex] on the transcript is reset to the empty string. *)
Theorem final_results_take_precedence
    (resultIndex : nat) (results : list (string * bool)) :
  Voice.onresult resultIndex results
    = (if bool_decide (Voice.joined true (drop resultIndex results) = "")
       then Voice.joined false (drop resultIndex results)
       else Voice.joined true (drop resultIndex results)) /\
  (forall earlier,
     Voice.onresult (length earlier + resultIndex) (earlier ++ results)
     = Voice.onresult resultIndex results) /\
  ((length results <= resultIndex)%nat -> Voice.onresult resultIndex results = "").
Proof.
  assert (Hon : forall i rs,
            Voice.onresult i rs
            = if bool_decide (Voice.joined true (drop i rs) = "")
              then Voice.joined false (drop i rs) else Voice.joined true (drop i rs)).
  { intros i rs. unfold Voice.onresult. rewrite collect_joined.
    change ("" +:+ Voice.joined true (drop i rs)) with (Voice.joined true (drop i rs)).
    change ("" +:+ Voice.joined false (drop i rs)) with (Voice.joined false (drop i rs)).
    simpl. destruct (String.eqb_spec (Voice.joined true (drop i rs)) "") as [He|Hne].
    - now rewrite bool_decide_eq_true_2.
    - now rewrite bool_decide_eq_false_2. }
  split; [apply Hon|]. split.
  - intros earlier. rewrite !Hon. now rewrite drop_app_add.
  - intros Hlen. rewrite Hon. now rewrite drop_ge.
Qed.

